(** * A shallow embedding of the workstation activity tracker (main.py)

    The Python classes of main.py become modules of pure functions over
    explicit state records.  Python dictionaries are finite maps ([gmap]),
    Python lists are lists, Python integers are [Z].  Durations read from the
    idle-time query are seconds with a fractional part (milliseconds divided
    by 1000.0); they are modelled as exact rationals [Q], so the rounding of
    double-precision arithmetic is not part of the model.  Everything the
    program obtains from its environment (browser history, foreground window,
    idle reading, the current date, HTTP responses, the persistence file) is
    an explicit argument of the operation that reads it. *)

From stdpp Require Import gmap strings list fin_maps.
From Stdlib Require Import QArith Ascii.

Open Scope string_scope.
Open Scope Z_scope.

(** ** Python values shared by the classes *)

(** A captured key symbol: [key.char] when the key object has that attribute
    (and [key.char] is [None] for key codes without a character), otherwise
    [str(key)].  [None] is Python's [None]. *)
Definition key_symbol : Type := option string.

(** The JSON documents the program writes: the metrics payload of
    [save_logs].  Objects keep their fields in insertion order. *)
#[warnings="-register-all"]
Inductive json : Type :=
| JNull
| JInt (n : Z)
| JReal (q : Q)
| JStr (s : string)
| JArr (items : list json)
| JObj (fields : list (string * json)).

(** The field names of a JSON object, in order ([dict.keys()]). *)
Definition json_fields (j : json) : option (list string) :=
  match j with
  | JObj fields => Some (fields.*1)
  | _ => None
  end.

(** [dict.update({k: v})] on an insertion-ordered object: an existing field
    keeps its position and takes the new value, a new field goes last. *)
Fixpoint obj_update (k : string) (v : json) (fields : list (string * json))
  : list (string * json) :=
  match fields with
  | [] => [(k, v)]
  | (k', v') :: rest =>
      if decide (k' = k) then (k, v) :: rest else (k', v') :: obj_update k v rest
  end.

(** [d.get(k)] on an object. *)
Fixpoint obj_lookup (k : string) (fields : list (string * json)) : option json :=
  match fields with
  | [] => None
  | (k', v') :: rest => if decide (k' = k) then Some v' else obj_lookup k rest
  end.

(** ** IdleTimeLogger *)

Module IdleTimeLogger.

Record t := Make {
  idle_threshold : Q;
  total_idle_time : Q;
  current_logged_time : Q
}.

(** [__init__(idle_threshold=300)]. *)
Definition init (threshold : Q) : t := Make threshold 0 0.

(** [check_idle], given what [get_idle_time] produced: [Some seconds], or
    [None] when it raised (any platform other than Windows, or a failed
    query).  Returns the new state and the returned value. *)
Definition check_idle (reading : option Q) (self : t) : t * Q :=
  match reading with
  | Some idle_time =>
      if Qle_bool (idle_threshold self) idle_time then
        let total := (total_idle_time self + (idle_time - current_logged_time self))%Q in
        (Make (idle_threshold self) total idle_time, total)
      else
        (Make (idle_threshold self) (total_idle_time self) 0, total_idle_time self)
  | None => (self, 0%Q)
  end.

(** Successive calls of [check_idle], one per reading; the values returned,
    in order, and the final state. *)
Fixpoint check_idle_all (readings : list (option Q)) (self : t) : list Q * t :=
  match readings with
  | [] => ([], self)
  | r :: rest =>
      let '(self1, v) := check_idle r self in
      let '(vs, self2) := check_idle_all rest self1 in
      (v :: vs, self2)
  end.

End IdleTimeLogger.

(** ** BrowserLogger *)

Module BrowserLogger.

(** The value stored per domain: [{"time_spent": _, "visits": _}]. *)
Record counts := Counts {
  time_spent : Z;
  visits : Z
}.

(** An entry of the browser history, [(timestamp, url, title)]; of the
    timestamp only [str(timestamp.date())] is used. *)
Record entry := Entry {
  entry_date : string;
  url : string;
  title : string
}.

(** [browser_time] and [browser_history]: date -> domain -> counts. *)
Record t := Make {
  browser_time : gmap string (gmap string counts);
  browser_history : gmap string (gmap string counts)
}.

Definition init : t := Make ∅ ∅.

(** ['//' in url]. *)
Fixpoint has_double_slash (s : string) : bool :=
  match s with
  | EmptyString => false
  | String c rest =>
      match rest with
      | String c' _ =>
          (Ascii.eqb c "/"%char && Ascii.eqb c' "/"%char) || has_double_slash rest
      | EmptyString => false
      end
  end.

(** [url.split('/')]: the pieces between slashes, empty pieces included. *)
Fixpoint split_slash (s : string) : list string :=
  match s with
  | EmptyString => [EmptyString]
  | String c rest =>
      if Ascii.eqb c "/"%char then EmptyString :: split_slash rest
      else match split_slash rest with
           | piece :: pieces => String c piece :: pieces
           | [] => [String c EmptyString]
           end
  end.

(** [url.split('/')[2] if '//' in url else url].  [None] stands for the
    [IndexError] of an index out of range, which [split_has_third] below
    shows cannot happen. *)
Definition domain_of (url : string) : option string :=
  if has_double_slash url then split_slash url !! 2%nat else Some url.

(** The three statements that count one history entry in [store[date]]:
    create [store[date][domain]] at zero when absent, then add one to
    [time_spent] and to [visits].  [store[date]] exists at each call. *)
Definition count_entry (date domain : string)
    (store : gmap string (gmap string counts)) : gmap string (gmap string counts) :=
  let day := default ∅ (store !! date) in
  let day1 :=
    match day !! domain with
    | Some _ => day
    | None => <[domain := Counts 0 0]> day
    end in
  let day2 := alter (λ c, Counts (time_spent c + 1) (visits c)) domain day1 in
  let day3 := alter (λ c, Counts (time_spent c) (visits c + 1)) domain day2 in
  <[date := day3]> store.

(** [if date not in store: store[date] = {}]. *)
Definition ensure_date (date : string)
    (store : gmap string (gmap string counts)) : gmap string (gmap string counts) :=
  match store !! date with
  | Some _ => store
  | None => <[date := ∅]> store
  end.

(** The body of [for entry in history].  [None] is the [IndexError]. *)
Definition log_entry (today : string) (self : t) (e : entry) : option t :=
  let history1 := ensure_date (entry_date e) (browser_history self) in
  domain ← domain_of (url e);
  let history2 := count_entry (entry_date e) domain history1 in
  let time1 :=
    if decide (entry_date e = today)
    then count_entry today domain (browser_time self)
    else browser_time self in
  Some (Make time1 history2).

Fixpoint log_entries (today : string) (self : t) (history : list entry) : option t :=
  match history with
  | [] => Some self
  | e :: rest => self1 ← log_entry today self e; log_entries today self1 rest
  end.

(** [log_browser_activity], given the list [fetch_browser_history]
    returned (the empty list when the fetch failed) and the current date.
    Returns the new state and the returned dictionary.  An exception in
    the body is caught and [{}] returned; the only one the model has is the
    [IndexError] of [domain_of], which is never raised, so the state such an
    exception would leave is not modelled further. *)
Definition log_browser_activity (history : list entry) (today : string) (self : t)
  : t * gmap string (gmap string counts) :=
  let self0 := Make (ensure_date today (browser_time self)) (browser_history self) in
  match log_entries today self0 history with
  | Some self1 => (self1, browser_time self1)
  | None => (self0, ∅)
  end.

(** The counts held for a domain on a date; zero when there are none. *)
Definition counts_at (date domain : string)
    (store : gmap string (gmap string counts)) : counts :=
  default (Counts 0 0) (store !! date ≫= (.!! domain)).

(** How many entries of a history snapshot fall on [date] for [domain]. *)
Definition entries_for (date domain : string) (history : list entry) : Z :=
  Z.of_nat (length (filter
    (λ e, entry_date e = date ∧ domain_of (url e) = Some domain) history)).

(** Both counters raised by [n]. *)
Definition add_counts (n : Z) (c : counts) : counts :=
  Counts (time_spent c + n) (visits c + n).

(** [k] successive calls of [log_browser_activity] against the same
    history snapshot on the same day. *)
Definition sample_repeatedly (k : nat) (history : list entry) (today : string)
    (self : t) : t :=
  Nat.iter k (λ s, (log_browser_activity history today s).1) self.

(** Successive calls of [log_browser_activity], each with the history
    snapshot and the date it ran on. *)
Definition sample_all (calls : list (list entry * string)) (self : t) : t :=
  foldl (λ s call, (log_browser_activity call.1 call.2 s).1) self calls.

(** No "/" in a piece of text. *)
Fixpoint slash_free (s : string) : bool :=
  match s with
  | EmptyString => true
  | String c rest => negb (Ascii.eqb c "/"%char) && slash_free rest
  end.

End BrowserLogger.

(** ** ApplicationLogger *)

Module ApplicationLogger.

Record t := Make { app_time : gmap string Z }.

Definition init : t := Make ∅.

(** [get_active_window]: the title of the foreground window, or the
    sentinel when the query raised ([None]). *)
Definition get_active_window (title : option string) : string :=
  default "Unknown" title.

(** [log_active_app]: [app_time[w] = app_time.get(w, 0) + 1]. *)
Definition log_active_app (title : option string) (self : t) : t :=
  let active_window := get_active_window title in
  Make (<[active_window := default 0 (app_time self !! active_window) + 1]> (app_time self)).

(** Successive calls of [log_active_app], one per answer of the window
    query. *)
Definition log_all (titles : list (option string)) (self : t) : t :=
  foldl (λ s title, log_active_app title s) self titles.

End ApplicationLogger.

(** ** KeyboardLogger *)

Module KeyboardLogger.

Record t := Make { key_data : gmap string (list key_symbol) }.

Definition init : t := Make ∅.

(** [on_press]: append the key symbol to the buffer of the active window,
    creating the buffer when absent. *)
Definition on_press (title : option string) (key_char : key_symbol) (self : t) : t :=
  let active_window := ApplicationLogger.get_active_window title in
  let buffer := default [] (key_data self !! active_window) in
  Make (<[active_window := (buffer ++ [key_char])%list]> (key_data self)).

(** Successive key presses, each with the answer of the window query at
    that moment. *)
Definition press_all (presses : list (option string * key_symbol)) (self : t) : t :=
  foldl (λ s press, on_press press.1 press.2 s) self presses.

End KeyboardLogger.

(** ** ProductivityTracker *)

Module ProductivityTracker.

(** *** The noise filter *)

(** The three loop variables of [count_valid_keystrokes]. *)
Record walk := Walk {
  valid_keys_count : Z;
  consecutive_count : Z;
  last_key : key_symbol
}.

(** One iteration of the loop body, at [current_key = keys[i]]. *)
Definition walk_step (max_idle : Z) (w : walk) (current_key : key_symbol) : walk :=
  let consecutive :=
    if decide (current_key = last_key w) then consecutive_count w + 1 else 1 in
  let valid :=
    if decide (consecutive ≤ max_idle)
    then valid_keys_count w + 1 else valid_keys_count w in
  Walk valid consecutive current_key.

(** [valid_keys_count = 0; consecutive_count = 1; last_key = None]. *)
Definition walk_init : walk := Walk 0 1 None.

(** [for i in range(1, len(keys))] visits [keys[1:]] in order. *)
Definition count_valid_keystrokes (keys : list key_symbol) (max_idle : Z) : Z :=
  valid_keys_count (foldl (walk_step max_idle) walk_init (drop 1 keys)).

(** The default of the keyword argument [max_idle=20]. *)
Definition default_max_idle : Z := 20.

(** The variant the comments of the loop describe ("start by counting the
    first key", "check if current key is the same as the previous one"):
    the remembered key starts as [keys[0]].  Only used to locate the
    difference with the code. *)
Definition count_valid_keystrokes_from_first (keys : list key_symbol) (max_idle : Z) : Z :=
  match keys with
  | [] => 0
  | k0 :: rest => valid_keys_count (foldl (walk_step max_idle) (Walk 0 1 k0) rest)
  end.

(** *** The persisted record *)

(** A context entry of a day's record.  Browser entries carry [visits],
    application entries do not have that field. *)
Record context_stats := ContextStats {
  time_spent : Z;
  visits : option Z;
  keys : list key_symbol;
  total_key_strokes : Z
}.

(** [day_logs[date]]. *)
Record activity_record := ActivityRecord {
  browser_activity : gmap string context_stats;
  application_activity : gmap string context_stats;
  idle_time : Q
}.

(** [self.logs].  [emp_id] is whatever [data.get("emp_id")] gave, [None]
    being Python's [None]. *)
Record log_store := LogStore {
  emp_id : option Z;
  day_logs : gmap string activity_record;
  summary : gmap string json
}.

(** [{"emp_id": id, "day_logs": {}, "summary": {}}]. *)
Definition empty_logs (id : option Z) : log_store := LogStore id ∅ ∅.

(** The default record of [aggregate_logs]. *)
Definition empty_record : activity_record := ActivityRecord ∅ ∅ 0.

(** *** Exceptions and the persistence file *)

Inductive exn : Type :=
| FileNotFoundError
| JSONDecodeError
| UuidError
| RequestError.

Inductive result (A : Type) : Type :=
| Ok (a : A)
| Raise (e : exn).
Global Arguments Ok {A} a.
Global Arguments Raise {A} e.

(** The value of a call that returned. *)
Definition result_value {A : Type} (r : result A) : option A :=
  match r with
  | Ok a => Some a
  | Raise _ => None
  end.

Global Instance result_fmap : FMap result := λ A B f r,
  match r with
  | Ok a => Ok (f a)
  | Raise e => Raise e
  end.

(** The text of productivity_logs.json as a text-mode read gives it, or
    [None] when the file does not exist. *)
Definition file_state : Type := option string.

(** [len(f.readlines())]: every newline ends a line, and text after the
    last newline is a line of its own. *)
Fixpoint count_lines (in_line : bool) (text : string) : nat :=
  match text with
  | EmptyString => if in_line then 1%nat else 0%nat
  | String c rest =>
      if Ascii.eqb c "010"%char then S (count_lines false rest)
      else count_lines true rest
  end.

Definition readlines_length (text : string) : nat := count_lines false text.

(** The text left after the first [n] characters. *)
Fixpoint string_drop (n : nat) (text : string) : string :=
  match n, text with
  | O, _ => text
  | S n', String _ rest => string_drop n' rest
  | S _, EmptyString => EmptyString
  end.

(** Writing [text] at offset 0 of a file opened with mode "r+": the file
    is not truncated, what lies beyond the written text stays. *)
Definition overwrite_prefix (text old : string) : string :=
  text +:+ string_drop (String.length text) old.

(** *** The tracker *)

Record t := Make {
  host : string;
  loaded : bool;
  log_interval : Z;
  uuid : string;
  browser_logger : BrowserLogger.t;
  application_logger : ApplicationLogger.t;
  idle_logger : IdleTimeLogger.t;
  keyboard_logger : KeyboardLogger.t;
  logs : log_store
}.

Definition set_logs (l : log_store) (self : t) : t :=
  Make (host self) (loaded self) (log_interval self) (uuid self)
       (browser_logger self) (application_logger self) (idle_logger self)
       (keyboard_logger self) l.

(** The response of the verify-uuid request: its status code and
    [response.json().get("emp_id")]. *)
Record response := Response {
  status_code : Z;
  body_emp_id : option Z
}.

(** [dict.setdefault(k, v)]: an existing entry is kept. *)
Definition setdefault {V : Type} (k : string) (v : V) (m : gmap string V) : gmap string V :=
  match m !! k with
  | Some _ => m
  | None => <[k := v]> m
  end.

Section WithJson.

(** The JSON codec of the standard library.  [json_load] is [json.load]
    followed by the reading of the fields the program uses; [None] is
    [json.JSONDecodeError].  [json_dump] is [json.dump(logs, f)] and
    [json_dump_indent] is [json.dump(logs, f, indent=4)]. *)
Variable json_load : string → option log_store.
Variable json_dump : log_store → string.
Variable json_dump_indent : log_store → string.

(** [load_logs]: the value given to [self.logs] and whether [self.loaded]
    was set.  Only [json.JSONDecodeError] is caught, and re-raised. *)
Definition load_logs (file : file_state) : result (log_store * bool) :=
  match file with
  | None => Raise FileNotFoundError
  | Some text =>
      if decide (10 < readlines_length text)%nat then
        match json_load text with
        | Some l => Ok (l, true)
        | None => Raise JSONDecodeError
        end
      else Ok (empty_logs (Some (-1)), false)
  end.

(** [__init__]: [system_uuid] is what [get_system_uuid] found ([None]
    when it raised), [today] the value of the [today] property. *)
Definition init (host : string) (log_interval : Z) (idletime : Q)
    (system_uuid : option string) (file : file_state) (today : string) : result t :=
  match system_uuid with
  | None => Raise UuidError
  | Some uuid =>
      match load_logs file with
      | Raise e => Raise e
      | Ok (l, was_loaded) =>
          let idle := IdleTimeLogger.init idletime in
          let fresh (flag : bool) (i : IdleTimeLogger.t) :=
            Make host flag log_interval uuid BrowserLogger.init
                 ApplicationLogger.init i KeyboardLogger.init l in
          match (if was_loaded then day_logs l !! today else None) with
          | Some rec =>
              Ok (fresh false
                    (IdleTimeLogger.Make (IdleTimeLogger.idle_threshold idle)
                       (idle_time rec)
                       (IdleTimeLogger.current_logged_time idle)))
          | None => Ok (fresh was_loaded idle)
          end
      end
  end.

(** [reset_logs(id)]: the file is opened with mode "r+" first, which
    raises when it does not exist; then the store is replaced and dumped
    over the beginning of the file. *)
Definition reset_logs (id : option Z) (file : file_state) (self : t)
  : result (t * file_state) :=
  match file with
  | None => Raise FileNotFoundError
  | Some old =>
      let l := empty_logs id in
      Ok (set_logs l self, Some (overwrite_prefix (json_dump l) old))
  end.

(** [verify_change_in_user_on_this_system_uuid], given the response of
    the request ([None] when [requests.get] raised). *)
Definition verify_change_in_user_on_this_system_uuid
    (resp : option response) (file : file_state) (self : t)
  : result (t * file_state) :=
  match resp with
  | None => Raise RequestError
  | Some r =>
      if decide (status_code r ≠ 200) then reset_logs (Some (-1)) file self
      else
        let id := body_emp_id r in
        if decide (id ≠ emp_id (logs self)) then reset_logs id file self
        else Ok (self, file)
  end.

(** What [save_logs] keeps of an application's entry:
    [{"total_key_strokes": entry["total_key_strokes"]}]. *)
Definition filtered_entry (stats : context_stats) : json :=
  JObj [("total_key_strokes", JInt (total_key_strokes stats))].

(** The payload built inside [save_logs]: [None] when today's record is
    missing or has no application activity. *)
Definition metrics_payload (today : string) (self : t) : option json :=
  match day_logs (logs self) !! today with
  | None => None
  | Some rec =>
      let app_activities := application_activity rec in
      if decide (app_activities = ∅) then None
      else
        let filtered :=
          foldl (λ payload '(app_activity, stats),
                   obj_update app_activity (filtered_entry stats) payload)
                [] (map_to_list app_activities) in
        Some (JObj [("uuid", JStr (uuid self));
                    ("date", JStr today);
                    ("app_details", JObj filtered);
                    ("idle_time", JReal (idle_time rec))])
  end.

(** One round of the loop of [save_logs]: the state and the file after
    it, and the payload handed to [send_metrics], if any.  An exception
    raised by the verification leaves the round at that point. *)
Definition save_logs_round (resp : option response) (today : string)
    (file : file_state) (self : t) : t * file_state * option json :=
  match verify_change_in_user_on_this_system_uuid resp file self with
  | Raise _ => (self, file, None)
  | Ok (self1, _) =>
      (self1, Some (json_dump_indent (logs self1)), metrics_payload today self1)
  end.

End WithJson.

(** *** Aggregation *)

(** The default entry of a browser domain, seeded from the sampler. *)
Definition browser_seed (activity : BrowserLogger.counts) : context_stats :=
  ContextStats (BrowserLogger.time_spent activity)
               (Some (BrowserLogger.visits activity)) [] 0.

(** The default entry of an application, seeded from the sampler. *)
Definition application_seed (time_spent : Z) : context_stats :=
  ContextStats time_spent None [] 0.

(** [entry["keys"].extend(temp_keys)] followed by the assignment of
    [entry["total_key_strokes"]]. *)
Definition extend_keys (temp_keys : list key_symbol) (stats : context_stats)
  : context_stats :=
  let all_keys := (keys stats ++ temp_keys)%list in
  ContextStats (time_spent stats) (visits stats) all_keys
    (count_valid_keystrokes all_keys default_max_idle).

(** An entry after its context's pending buffer, if it has one, was fed
    into it. *)
Definition fed_with (buffer : option (list key_symbol)) (stats : context_stats)
  : context_stats :=
  from_option (λ ks, extend_keys ks stats) stats buffer.

(** Successive key presses, on the tracker's state. *)
Definition keys_pressed (presses : list (option string * key_symbol)) (self : t) : t :=
  Make (host self) (loaded self) (log_interval self) (uuid self)
       (browser_logger self) (application_logger self) (idle_logger self)
       (KeyboardLogger.press_all presses (keyboard_logger self)) (logs self).

(** What the last loop of [aggregate_logs] changes: the two maps of
    today's record and the pending key buffers. *)
Record drain_state := DrainState {
  drain_browser : gmap string context_stats;
  drain_application : gmap string context_stats;
  drain_key_data : gmap string (list key_symbol)
}.

(** The body of [for context, keys in self.keyboard_logger.key_data.items()]. *)
Definition drain_step (st : drain_state) (item : string * list key_symbol)
  : drain_state :=
  let '(context, temp_keys) := item in
  let pending := default [] (drain_key_data st !! context) in
  let key_data1 := <[context := drop (length temp_keys) pending]> (drain_key_data st) in
  match drain_browser st !! context with
  | Some stats =>
      DrainState (<[context := extend_keys temp_keys stats]> (drain_browser st))
                 (drain_application st) key_data1
  | None =>
      match drain_application st !! context with
      | Some stats =>
          DrainState (drain_browser st)
                     (<[context := extend_keys temp_keys stats]> (drain_application st))
                     key_data1
      | None => DrainState (drain_browser st) (drain_application st) key_data1
      end
  end.

(** The first loop: one [setdefault] per domain of the sampler's today. *)
Definition seed_browser_activity (sampled : list (string * BrowserLogger.counts))
    (activity : gmap string context_stats) : gmap string context_stats :=
  foldl (λ acc '(url, counts), setdefault url (browser_seed counts) acc) activity sampled.

(** The second loop: one [setdefault] per application of the sampler. *)
Definition seed_application_activity (sampled : list (string * Z))
    (activity : gmap string context_stats) : gmap string context_stats :=
  foldl (λ acc '(app, time_spent), setdefault app (application_seed time_spent) acc)
        activity sampled.

(** The part of [aggregate_logs] that works on today's record: the three
    loops and the assignment of [idle_time].  Returns the record and the
    pending key buffers left.  The dictionaries are visited through
    [map_to_list]; the lemmas on the loops below hold for every order of
    visit. *)
Definition aggregate_record (sampled_today : gmap string BrowserLogger.counts)
    (app_time : gmap string Z) (pending : gmap string (list key_symbol))
    (total_idle_time : Q) (rec0 : activity_record)
  : activity_record * gmap string (list key_symbol) :=
  let browser1 := seed_browser_activity (map_to_list sampled_today) (browser_activity rec0) in
  let application1 :=
    seed_application_activity (map_to_list app_time) (application_activity rec0) in
  let drained :=
    foldl drain_step (DrainState browser1 application1 pending) (map_to_list pending) in
  (ActivityRecord (drain_browser drained) (drain_application drained) total_idle_time,
   drain_key_data drained).

(** [aggregate_logs], with [today] the value the property returned. *)
Definition aggregate_logs (today : string) (self : t) : t :=
  let day_logs0 := setdefault today empty_record (day_logs (logs self)) in
  let rec0 := default empty_record (day_logs0 !! today) in
  let aggregated :=
    aggregate_record
      (default ∅ (BrowserLogger.browser_time (browser_logger self) !! today))
      (ApplicationLogger.app_time (application_logger self))
      (KeyboardLogger.key_data (keyboard_logger self))
      (IdleTimeLogger.total_idle_time (idle_logger self))
      rec0 in
  Make (host self) (loaded self) (log_interval self) (uuid self)
       (browser_logger self) (application_logger self) (idle_logger self)
       (KeyboardLogger.Make aggregated.2)
       (LogStore (emp_id (logs self)) (<[today := aggregated.1]> day_logs0)
                 (summary (logs self))).

(** One round of [track_activity]: the three samplers, then the
    aggregation.  The arguments are what the environment answered. *)
Definition track_activity_round (history : list BrowserLogger.entry)
    (title : option string) (reading : option Q) (today : string) (self : t) : t :=
  let browser1 := (BrowserLogger.log_browser_activity history today (browser_logger self)).1 in
  let application1 := ApplicationLogger.log_active_app title (application_logger self) in
  let idle1 := (IdleTimeLogger.check_idle reading (idle_logger self)).1 in
  aggregate_logs today
    (Make (host self) (loaded self) (log_interval self) (uuid self)
          browser1 application1 idle1 (keyboard_logger self) (logs self)).

(** The key listener's callback, on the tracker's state. *)
Definition key_pressed (title : option string) (key_char : key_symbol) (self : t) : t :=
  Make (host self) (loaded self) (log_interval self) (uuid self)
       (browser_logger self) (application_logger self) (idle_logger self)
       (KeyboardLogger.on_press title key_char (keyboard_logger self)) (logs self).

(** The three loops of [run], interleaved: what can happen to the tracker
    and to the persistence file, one event at a time. *)
Inductive event : Type :=
| KeyPress (title : option string) (key_char : key_symbol)
| TrackRound (history : list BrowserLogger.entry) (title : option string)
    (reading : option Q) (today : string)
| SaveRound (resp : option response) (today : string).

Definition step (json_dump json_dump_indent : log_store → string)
    (st : t * file_state) (ev : event) : t * file_state :=
  match ev with
  | KeyPress title key_char => (key_pressed title key_char st.1, st.2)
  | TrackRound history title reading today =>
      (track_activity_round history title reading today st.1, st.2)
  | SaveRound resp today =>
      (save_logs_round json_dump json_dump_indent resp today st.2 st.1).1
  end.

Definition run (json_dump json_dump_indent : log_store → string)
    (events : list event) (st : t * file_state) : t * file_state :=
  foldl (step json_dump json_dump_indent) st events.

(** Today's entry of a domain or of an application, when there is one. *)
Definition browser_entry (today domain : string) (self : t) : option context_stats :=
  day_logs (logs self) !! today ≫= λ rec, browser_activity rec !! domain.

Definition application_entry (today app : string) (self : t) : option context_stats :=
  day_logs (logs self) !! today ≫= λ rec, application_activity rec !! app.

(** Today's record as the aggregation finds it, and its two maps after the
    two loops of [setdefault]: the entries the record has, and a seeded entry
    for every domain sampled today, or application sampled, that it lacks. *)
Definition today_record (today : string) (self : t) : activity_record :=
  default empty_record (day_logs (logs self) !! today).

Definition seeded_browser (today : string) (self : t) : gmap string context_stats :=
  browser_activity (today_record today self)
  ∪ (browser_seed <$>
       default ∅ (BrowserLogger.browser_time (browser_logger self) !! today)).

Definition seeded_application (today : string) (self : t) : gmap string context_stats :=
  application_activity (today_record today self)
  ∪ (application_seed <$> ApplicationLogger.app_time (application_logger self)).

(** The pending keys of a context. *)
Definition pending_keys (context : string) (self : t) : option (list key_symbol) :=
  KeyboardLogger.key_data (keyboard_logger self) !! context.

(** The two sample counts of an entry. *)
Definition counts_of (stats : context_stats) : Z * option Z :=
  (time_spent stats, visits stats).

(** The cached count of an entry agrees with the noise filter on its keys. *)
Definition cache_consistent (stats : context_stats) : Prop :=
  total_key_strokes stats =
  count_valid_keystrokes (keys stats) default_max_idle.

(** Every entry of a day's record has a consistent cache. *)
Definition record_consistent (rec : activity_record) : Prop :=
  map_Forall (λ _, cache_consistent) (browser_activity rec) ∧
  map_Forall (λ _, cache_consistent) (application_activity rec).

(** Every entry of every day of a store has a consistent cache. *)
Definition store_consistent (l : log_store) : Prop :=
  map_Forall (λ _, record_consistent) (day_logs l).

End ProductivityTracker.

(** ** Concrete scenarios used by the examples below *)

Module Scenario.

Definition a : key_symbol := Some "a".

(** The raw idle readings [0, 0, 400, 450, 0], all delivered. *)
Definition readings : list (option Q) :=
  [Some 0%Q; Some 0%Q; Some 400%Q; Some 450%Q; Some 0%Q].

Definition day : string := "2024-05-06".

(** A history snapshot with a single visit made on [day]. *)
Definition one_visit : list BrowserLogger.entry :=
  [BrowserLogger.Entry day "https://example.org/index.html" "Example"].

Definition sampled_once : BrowserLogger.t :=
  (BrowserLogger.log_browser_activity one_visit day BrowserLogger.init).1.

Definition sampled_twice : BrowserLogger.t :=
  (BrowserLogger.log_browser_activity one_visit day sampled_once).1.

(** A tracker that has just started on an empty store. *)
Definition fresh : ProductivityTracker.t :=
  ProductivityTracker.Make "127.0.0.1" false 300 "4C4C4544-0042-3510"
    BrowserLogger.init ApplicationLogger.init (IdleTimeLogger.init 120)
    KeyboardLogger.init (ProductivityTracker.empty_logs (Some (-1))).

(** A round of [track_activity] on [day] with the window "Editor" in the
    foreground, an empty browser history and no idleness. *)
Definition editor_tick (self : ProductivityTracker.t) : ProductivityTracker.t :=
  ProductivityTracker.track_activity_round [] (Some "Editor") (Some 0%Q) day self.

Definition one_tick : ProductivityTracker.t := editor_tick fresh.
Definition two_ticks : ProductivityTracker.t := editor_tick one_tick.

(** The tracker on an empty store, after "Editor" was seen in the
    foreground once and three "a" were typed in it. *)
Definition typing : ProductivityTracker.t :=
  let seen :=
    ProductivityTracker.Make "127.0.0.1" false 300 "4C4C4544-0042-3510"
      BrowserLogger.init
      (ApplicationLogger.log_active_app (Some "Editor") ApplicationLogger.init)
      (IdleTimeLogger.init 120) KeyboardLogger.init
      (ProductivityTracker.empty_logs (Some (-1))) in
  ProductivityTracker.key_pressed (Some "Editor") a
    (ProductivityTracker.key_pressed (Some "Editor") a
       (ProductivityTracker.key_pressed (Some "Editor") a seen)).

(** The same tracker after the aggregation of [day]. *)
Definition typed : ProductivityTracker.t :=
  ProductivityTracker.aggregate_logs day typing.

(** A persistence file of eleven (empty) lines, and a codec that reads it
    as a store holding a record of [day] with 150 seconds of idle time. *)
Definition eleven_lines : string := Nat.iter 11 (String "010"%char) EmptyString.

Definition stored : ProductivityTracker.log_store :=
  ProductivityTracker.LogStore (Some 7)
    {[day := ProductivityTracker.ActivityRecord ∅ ∅ 150]} ∅.

Definition read_stored (text : string) : option ProductivityTracker.log_store :=
  Some stored.

(** The new tracker after one "a" was typed in a window, "Terminal", that
    no sampler has seen. *)
Definition unsampled : ProductivityTracker.t :=
  ProductivityTracker.key_pressed (Some "Terminal") a fresh.

(** A tracker whose browser sampler has seen "example.org" today, with two
    keys pending for that name. *)
Definition browsing : ProductivityTracker.t :=
  ProductivityTracker.keys_pressed [(Some "example.org", a); (Some "example.org", a)]
    (ProductivityTracker.Make "127.0.0.1" false 300 "4C4C4544-0042-3510"
       sampled_once ApplicationLogger.init (IdleTimeLogger.init 120)
       KeyboardLogger.init (ProductivityTracker.empty_logs (Some (-1)))).

(** A codec that writes every store as [eleven_lines]. *)
Definition write_eleven_lines (l : ProductivityTracker.log_store) : string :=
  eleven_lines.

(** A tracker that holds [stored], and the response that confirms its
    identity. *)
Definition restored : ProductivityTracker.t :=
  ProductivityTracker.set_logs stored fresh.

Definition same_user_7 : ProductivityTracker.response :=
  ProductivityTracker.Response 200 (Some 7).

(** A short series of events: two keys in "Editor", a tracking round, a
    save round answered with another identity, and a tracking round. *)
Definition some_events : list ProductivityTracker.event :=
  [ProductivityTracker.KeyPress (Some "Editor") a;
   ProductivityTracker.KeyPress (Some "Editor") a;
   ProductivityTracker.TrackRound one_visit (Some "Editor") (Some 0%Q) day;
   ProductivityTracker.SaveRound (Some (ProductivityTracker.Response 200 (Some 42))) day;
   ProductivityTracker.TrackRound one_visit None (Some 500%Q) day].

(** A persisted store whose record of [day] holds, for "Editor", three keys
    and a cached count of 99; the codec that reads it; the tracker that
    starts on it; and that tracker after one more "a" was typed in
    "Editor". *)
Definition stale_entry : ProductivityTracker.context_stats :=
  ProductivityTracker.ContextStats 5 None [a; a; a] 99.

Definition stale_store : ProductivityTracker.log_store :=
  ProductivityTracker.LogStore (Some 7)
    {[day := ProductivityTracker.ActivityRecord ∅ {["Editor" := stale_entry]} 0]} ∅.

Definition read_stale (text : string) : option ProductivityTracker.log_store :=
  Some stale_store.

Definition stale : ProductivityTracker.t :=
  ProductivityTracker.set_logs stale_store fresh.

Definition stale_typing : ProductivityTracker.t :=
  ProductivityTracker.key_pressed (Some "Editor") a stale.

(** A verification response that confirms the stored identity. *)
Definition same_user : ProductivityTracker.response :=
  ProductivityTracker.Response 200 (Some (-1)).

End Scenario.

(** * Properties *)

(** ** The noise filter *)

(** Adding [d] to the running count of a walk adds [d] to its result. *)
Lemma walk_shift max_idle l : ∀ w d,
    ProductivityTracker.valid_keys_count
      (foldl (ProductivityTracker.walk_step max_idle)
         (ProductivityTracker.Walk (ProductivityTracker.valid_keys_count w + d)
            (ProductivityTracker.consecutive_count w) (ProductivityTracker.last_key w)) l) =
    ProductivityTracker.valid_keys_count (foldl (ProductivityTracker.walk_step max_idle) w l) + d.
Proof.
  induction l as [|k l IH]; intros w d; simpl; [done|].
  rewrite <- IH. f_equal. f_equal.
  unfold ProductivityTracker.walk_step; simpl.
  repeat case_decide; f_equal; lia.
Qed.

(** On a sequence of at least two keys the walk forgets [keys[0]]: it is the
    walk the comments describe, run on [keys[1:]], plus one for [keys[1]]
    itself (when [max_idle] admits a run of length 1). *)
Lemma count_valid_keystrokes_tail k0 k1 rest max_idle :
  k1 ≠ None →
  ProductivityTracker.count_valid_keystrokes (k0 :: k1 :: rest) max_idle =
  ProductivityTracker.count_valid_keystrokes_from_first (k1 :: rest) max_idle +
  (if decide (1 ≤ max_idle) then 1 else 0).
Proof.
  intros Hk1. unfold ProductivityTracker.count_valid_keystrokes,
    ProductivityTracker.count_valid_keystrokes_from_first. simpl.
  rewrite <- (walk_shift max_idle rest (ProductivityTracker.Walk 0 1 k1)).
  f_equal. f_equal. unfold ProductivityTracker.walk_step, ProductivityTracker.walk_init. simpl.
  repeat case_decide; try done; f_equal; lia.
Qed.

(** C1: the code at the two test vectors.  [["a","a","a"]] with
    [max_idle = 20] gives 2; [["a","a","a","a"]] with [max_idle = 2] gives 2
    and not 1, because the remembered key starts as [None] and index 1
    restarts the run at length 1.  The walk that starts from [keys[0]], as
    the comments of the loop say, gives 2 and 1. *)
Theorem count_valid_keystrokes_test_vectors :
  let a := Scenario.a in
  ProductivityTracker.count_valid_keystrokes [a; a; a] 20 = 2 ∧
  ProductivityTracker.count_valid_keystrokes [a; a; a; a] 2 = 2 ∧
  ProductivityTracker.count_valid_keystrokes [a; a; a; a] 2 ≠ 1 ∧
  ProductivityTracker.count_valid_keystrokes_from_first [a; a; a] 20 = 2 ∧
  ProductivityTracker.count_valid_keystrokes_from_first [a; a; a; a] 2 = 1.
Proof. repeat split; done. Qed.

(** ** The idle tracker *)

(** C2, as stated, fails: the accumulator sequence is not [0,0,100,150,150]. *)
Lemma idle_readings_not_as_claimed :
  (IdleTimeLogger.check_idle_all Scenario.readings (IdleTimeLogger.init 300)).1
  ≠ [0%Q; 0%Q; 100%Q; 150%Q; 150%Q].
Proof. vm_compute. intros H. discriminate H. Qed.

(** C2, amended: the readings [0,0,400,450,0] with threshold 300 give the
    accumulator values [0,0,400,450,450].  A tick below the threshold adds
    nothing and puts the logged reading back to 0; a tick at or above it adds
    the reading minus the logged reading (the whole 400 on the first idle
    tick, the delta 50 on the next) and logs the reading.  The value returned
    is the accumulator. *)
Theorem check_idle_sequence :
  (IdleTimeLogger.check_idle_all Scenario.readings (IdleTimeLogger.init 300)).1
  = [0%Q; 0%Q; 400%Q; 450%Q; 450%Q] ∧
  ∀ (self : IdleTimeLogger.t) (raw : Q),
    let after := IdleTimeLogger.check_idle (Some raw) self in
    after.2 = IdleTimeLogger.total_idle_time after.1 ∧
    IdleTimeLogger.idle_threshold after.1 = IdleTimeLogger.idle_threshold self ∧
    IdleTimeLogger.total_idle_time after.1 =
      (if Qle_bool (IdleTimeLogger.idle_threshold self) raw
       then IdleTimeLogger.total_idle_time self
            + (raw - IdleTimeLogger.current_logged_time self)
       else IdleTimeLogger.total_idle_time self)%Q ∧
    IdleTimeLogger.current_logged_time after.1 =
      (if Qle_bool (IdleTimeLogger.idle_threshold self) raw then raw else 0)%Q.
Proof.
  split; [by vm_compute|].
  intros self raw. unfold IdleTimeLogger.check_idle. simpl.
  by destruct (Qle_bool _ _).
Qed.

(** ** The browser sampler *)

Lemma split_slash_nonempty s : BrowserLogger.split_slash s ≠ [].
Proof.
  destruct s as [|c s]; simpl; [done|].
  destruct (Ascii.eqb c "/"); [done|].
  by destruct (BrowserLogger.split_slash s).
Qed.

Lemma split_slash_length_cons c s :
  (length (BrowserLogger.split_slash s) ≤ length (BrowserLogger.split_slash (String c s)))%nat.
Proof.
  simpl. destruct (Ascii.eqb c "/"); simpl; [lia|].
  destruct (BrowserLogger.split_slash s); simpl; lia.
Qed.

(** When the url contains "//", its split has an element of index 2: the
    subscript of [domain_of] never raises. *)
Lemma split_has_third s :
  BrowserLogger.has_double_slash s = true →
  (3 ≤ length (BrowserLogger.split_slash s))%nat.
Proof.
  induction s as [|c s IH]; [done|].
  intros H. destruct s as [|c' s'] eqn:Hs; [done|].
  cbn [BrowserLogger.has_double_slash] in H.
  apply orb_true_iff in H as [H|H].
  - apply andb_true_iff in H as [Hc Hc'].
    cbn [BrowserLogger.split_slash]. rewrite Hc, Hc'. simpl.
    pose proof (split_slash_nonempty s').
    destruct (BrowserLogger.split_slash s'); [done|simpl; lia].
  - specialize (IH H).
    pose proof (split_slash_length_cons c (String c' s')). lia.
Qed.

Lemma domain_of_total url : is_Some (BrowserLogger.domain_of url).
Proof.
  unfold BrowserLogger.domain_of.
  destruct (BrowserLogger.has_double_slash url) eqn:H; [|by eexists].
  apply lookup_lt_is_Some. apply split_has_third in H. lia.
Qed.

Lemma counts_at_count_entry date domain date' domain' store :
  BrowserLogger.counts_at date' domain' (BrowserLogger.count_entry date domain store) =
  if decide (date' = date ∧ domain' = domain)
  then BrowserLogger.add_counts 1 (BrowserLogger.counts_at date domain store)
  else BrowserLogger.counts_at date' domain' store.
Proof.
  unfold BrowserLogger.counts_at, BrowserLogger.count_entry, BrowserLogger.add_counts.
  destruct (decide (date' = date)) as [->|Hd].
  - rewrite lookup_insert_eq. simpl.
    destruct (decide (domain' = domain)) as [->|Hdom].
    + rewrite decide_True by done. rewrite !lookup_alter_eq.
      destruct (default ∅ (store !! date) !! domain) as [c|] eqn:Hc.
      * rewrite Hc. simpl.
        destruct (store !! date) as [m|]; simpl in *; [by rewrite Hc|].
        by rewrite lookup_empty in Hc.
      * rewrite lookup_insert_eq. simpl.
        destruct (store !! date) as [m|]; simpl in *; [by rewrite Hc|done].
    + rewrite decide_False by (intros [? ?]; done).
      rewrite !lookup_alter_ne by done.
      destruct (default ∅ (store !! date) !! domain) eqn:Hc.
      * by destruct (store !! date).
      * rewrite lookup_insert_ne by done. by destruct (store !! date).
  - rewrite decide_False by (intros [? ?]; done). by rewrite lookup_insert_ne.
Qed.

Lemma counts_at_ensure_date date date' domain' store :
  BrowserLogger.counts_at date' domain' (BrowserLogger.ensure_date date store) =
  BrowserLogger.counts_at date' domain' store.
Proof.
  unfold BrowserLogger.counts_at, BrowserLogger.ensure_date.
  destruct (store !! date) eqn:H; [done|].
  destruct (decide (date = date')) as [<-|Hne].
  - by rewrite lookup_insert_eq, H.
  - by rewrite lookup_insert_ne.
Qed.

Lemma add_counts_add n m c :
  BrowserLogger.add_counts n (BrowserLogger.add_counts m c) = BrowserLogger.add_counts (m + n) c.
Proof. unfold BrowserLogger.add_counts. simpl. f_equal; lia. Qed.

Lemma add_counts_zero c : BrowserLogger.add_counts 0 c = c.
Proof. destruct c. unfold BrowserLogger.add_counts. simpl. f_equal; lia. Qed.

Lemma entries_for_cons date domain e history :
  BrowserLogger.entries_for date domain (e :: history) =
  (if decide (BrowserLogger.entry_date e = date ∧
              BrowserLogger.domain_of (BrowserLogger.url e) = Some domain)
   then 1 else 0) + BrowserLogger.entries_for date domain history.
Proof.
  unfold BrowserLogger.entries_for. rewrite filter_cons.
  case_decide; simpl length; lia.
Qed.

(** The loop over the history never raises, and raises every counter by the
    number of entries of the snapshot that fall on its date and domain. *)
Lemma log_entries_counts today history : ∀ self,
  ∃ self', BrowserLogger.log_entries today self history = Some self' ∧
    (∀ domain,
       BrowserLogger.counts_at today domain (BrowserLogger.browser_time self') =
       BrowserLogger.add_counts (BrowserLogger.entries_for today domain history)
         (BrowserLogger.counts_at today domain (BrowserLogger.browser_time self))) ∧
    (∀ date domain,
       BrowserLogger.counts_at date domain (BrowserLogger.browser_history self') =
       BrowserLogger.add_counts (BrowserLogger.entries_for date domain history)
         (BrowserLogger.counts_at date domain (BrowserLogger.browser_history self))).
Proof.
  induction history as [|e history IH]; intros self.
  - exists self. split; [done|]. split; intros; by rewrite add_counts_zero.
  - destruct (domain_of_total (BrowserLogger.url e)) as [d Hd].
    cbn [BrowserLogger.log_entries]. unfold BrowserLogger.log_entry. rewrite Hd.
    cbn [mbind option_bind].
    edestruct IH as (self' & -> & Htime & Hhist). exists self'.
    split; [done|]. cbn [BrowserLogger.browser_time BrowserLogger.browser_history] in *.
    split.
    + intros domain. rewrite Htime, entries_for_cons, Hd.
      destruct (decide (BrowserLogger.entry_date e = today)) as [He|He].
      * rewrite counts_at_count_entry.
        destruct (decide (d = domain)) as [->|Hne].
        -- rewrite !decide_True by done. by rewrite add_counts_add.
        -- rewrite !decide_False by (intros [? ?]; congruence).
           by rewrite Z.add_0_l.
      * rewrite decide_False by (intros [? ?]; done). by rewrite Z.add_0_l.
    + intros date domain. rewrite Hhist, entries_for_cons, Hd.
      rewrite counts_at_count_entry, counts_at_ensure_date.
      destruct (decide (BrowserLogger.entry_date e = date ∧ Some d = Some domain))
        as [[<- [= <-]]|Hne].
      * rewrite decide_True by done. by rewrite add_counts_add.
      * rewrite decide_False by (intros [? ?]; apply Hne; split; congruence).
        by rewrite Z.add_0_l, ?counts_at_ensure_date.
Qed.

(** C3, as stated, fails: sampling a second time against the same one-entry
    history does not give the counts of sampling once. *)
Lemma log_browser_activity_not_idempotent :
  BrowserLogger.counts_at Scenario.day "example.org"
    (BrowserLogger.browser_time Scenario.sampled_twice)
  ≠ BrowserLogger.counts_at Scenario.day "example.org"
    (BrowserLogger.browser_time Scenario.sampled_once).
Proof. vm_compute. intros H. discriminate H. Qed.

(** C3, amended: the sampler keeps its counters between calls, and each call
    adds to them one unit of [time_spent] and one of [visits] per entry of
    the history snapshot for that domain on that date, in today's view and in
    the all-time view alike, and returns today's view.  Starting from a new
    sampler, [k] calls against an unchanged history therefore hold [k] times
    the number of entries: the counts are a function of the snapshot and of
    the number of calls made, an accumulation and not a recomputation. *)
Theorem log_browser_activity_accumulates history today self date domain k :
  let after := BrowserLogger.log_browser_activity history today self in
  BrowserLogger.counts_at today domain (BrowserLogger.browser_time after.1) =
    BrowserLogger.add_counts (BrowserLogger.entries_for today domain history)
      (BrowserLogger.counts_at today domain (BrowserLogger.browser_time self)) ∧
  BrowserLogger.counts_at date domain (BrowserLogger.browser_history after.1) =
    BrowserLogger.add_counts (BrowserLogger.entries_for date domain history)
      (BrowserLogger.counts_at date domain (BrowserLogger.browser_history self)) ∧
  after.2 = BrowserLogger.browser_time after.1 ∧
  BrowserLogger.counts_at today domain
    (BrowserLogger.browser_time
       (BrowserLogger.sample_repeatedly k history today BrowserLogger.init)) =
    BrowserLogger.Counts (Z.of_nat k * BrowserLogger.entries_for today domain history)
                         (Z.of_nat k * BrowserLogger.entries_for today domain history).
Proof.
  assert (Hcall : ∀ s,
    let r := BrowserLogger.log_browser_activity history today s in
    BrowserLogger.counts_at today domain (BrowserLogger.browser_time r.1) =
      BrowserLogger.add_counts (BrowserLogger.entries_for today domain history)
        (BrowserLogger.counts_at today domain (BrowserLogger.browser_time s)) ∧
    BrowserLogger.counts_at date domain (BrowserLogger.browser_history r.1) =
      BrowserLogger.add_counts (BrowserLogger.entries_for date domain history)
        (BrowserLogger.counts_at date domain (BrowserLogger.browser_history s)) ∧
    r.2 = BrowserLogger.browser_time r.1).
  { intros s. unfold BrowserLogger.log_browser_activity.
    destruct (log_entries_counts today history
      (BrowserLogger.Make (BrowserLogger.ensure_date today (BrowserLogger.browser_time s))
         (BrowserLogger.browser_history s))) as (s' & -> & Htime & Hhist).
    cbn. rewrite Htime, Hhist. cbn. by rewrite counts_at_ensure_date. }
  destruct (Hcall self) as (H1 & H2 & H3). repeat split; [done..|].
  clear H1 H2 H3. induction k as [|k IH].
  - by vm_compute.
  - unfold BrowserLogger.sample_repeatedly in *. rewrite Nat.iter_succ.
    destruct (Hcall (Nat.iter k
      (λ s, (BrowserLogger.log_browser_activity history today s).1)
      BrowserLogger.init)) as (-> & _ & _).
    rewrite IH. unfold BrowserLogger.add_counts. cbn. f_equal; lia.
Qed.

(** ** The aggregation engine *)

(** A loop of [setdefault] calls is a union that prefers what was there. *)
Lemma foldl_setdefault {A V} (f : A → V) (l : list (string * A)) : ∀ m : gmap string V,
  foldl (λ acc '(k, a), ProductivityTracker.setdefault k (f a) acc) m l
  = m ∪ (f <$> (list_to_map l : gmap string A)).
Proof.
  induction l as [|[k a] l IH]; intros m.
  - cbn. by rewrite fmap_empty, (right_id_L ∅ (∪)).
  - cbn [foldl list_to_map foldr]. rewrite IH. cbn.
    apply map_eq. intros i. unfold ProductivityTracker.setdefault.
    rewrite !lookup_union, !lookup_fmap.
    destruct (decide (i = k)) as [->|Hne].
    + rewrite lookup_insert_eq.
      destruct (m !! k) eqn:Hk.
      * rewrite Hk. by destruct (list_to_map l !! k).
      * rewrite lookup_insert_eq. by destruct (list_to_map l !! k).
    + rewrite lookup_insert_ne by done.
      destruct (m !! k) eqn:Hk; [done|]. by rewrite lookup_insert_ne.
Qed.

Lemma seed_browser_activity_union (sampled : gmap string BrowserLogger.counts) activity :
  ProductivityTracker.seed_browser_activity (map_to_list sampled) activity
  = activity ∪ (ProductivityTracker.browser_seed <$> sampled).
Proof.
  unfold ProductivityTracker.seed_browser_activity.
  by rewrite (foldl_setdefault ProductivityTracker.browser_seed), list_to_map_to_list.
Qed.

Lemma seed_application_activity_union (sampled : gmap string Z) activity :
  ProductivityTracker.seed_application_activity (map_to_list sampled) activity
  = activity ∪ (ProductivityTracker.application_seed <$> sampled).
Proof.
  unfold ProductivityTracker.seed_application_activity.
  by rewrite (foldl_setdefault ProductivityTracker.application_seed), list_to_map_to_list.
Qed.

Lemma lookup_setdefault_ne {V} k (v : V) m k' :
  k' ≠ k → ProductivityTracker.setdefault k v m !! k' = m !! k'.
Proof.
  intros Hne. unfold ProductivityTracker.setdefault.
  destruct (m !! k); [done|]. by rewrite lookup_insert_ne.
Qed.

Lemma lookup_setdefault_eq {V} k (v : V) m :
  ProductivityTracker.setdefault k v m !! k = Some (default v (m !! k)).
Proof.
  unfold ProductivityTracker.setdefault.
  destruct (m !! k) eqn:H; [by rewrite H|]. by rewrite lookup_insert_eq.
Qed.

Section Drain.
Import ProductivityTracker.

(** Draining the key buffers changes neither [time_spent] nor [visits] of
    any entry, and creates no entry. *)
Lemma drain_step_counts st item c :
  counts_of <$> drain_browser (drain_step st item) !! c
    = counts_of <$> drain_browser st !! c ∧
  counts_of <$> drain_application (drain_step st item) !! c
    = counts_of <$> drain_application st !! c.
Proof.
  destruct item as [context ks]. unfold drain_step.
  destruct (drain_browser st !! context) as [sb|] eqn:Hb;
    [|destruct (drain_application st !! context) as [sa|] eqn:Ha]; cbn;
    (split; [|]); try done;
    (destruct (decide (c = context)) as [->|Hne];
      [rewrite lookup_insert_eq; by rewrite ?Hb, ?Ha
      |by rewrite lookup_insert_ne]).
Qed.

Lemma drain_counts l : ∀ st c,
  counts_of <$> drain_browser (foldl drain_step st l) !! c
    = counts_of <$> drain_browser st !! c ∧
  counts_of <$> drain_application (foldl drain_step st l) !! c
    = counts_of <$> drain_application st !! c.
Proof.
  induction l as [|item l IH]; intros st c; [done|].
  cbn [foldl]. destruct (IH (drain_step st item) c) as [-> ->].
  apply drain_step_counts.
Qed.

(** An entry whose keys were extended has its count recomputed. *)
Lemma cache_consistent_extend_keys ks stats : cache_consistent (extend_keys ks stats).
Proof. done. Qed.

Lemma drain_step_consistent st item :
  map_Forall (λ _, cache_consistent) (drain_browser st) →
  map_Forall (λ _, cache_consistent) (drain_application st) →
  map_Forall (λ _, cache_consistent) (drain_browser (drain_step st item)) ∧
  map_Forall (λ _, cache_consistent) (drain_application (drain_step st item)).
Proof.
  intros Hb Ha. destruct item as [context ks]. unfold drain_step.
  destruct (drain_browser st !! context) as [sb|];
    [|destruct (drain_application st !! context) as [sa|]]; cbn;
    split; try done; apply map_Forall_insert_2; try done;
    apply cache_consistent_extend_keys.
Qed.

Lemma drain_consistent l : ∀ st,
  map_Forall (λ _, cache_consistent) (drain_browser st) →
  map_Forall (λ _, cache_consistent) (drain_application st) →
  map_Forall (λ _, cache_consistent) (drain_browser (foldl drain_step st l)) ∧
  map_Forall (λ _, cache_consistent) (drain_application (foldl drain_step st l)).
Proof.
  induction l as [|item l IH]; intros st Hb Ha; [done|].
  cbn [foldl]. destruct (drain_step_consistent st item Hb Ha). by apply IH.
Qed.

(** The counts of the entries of the aggregated record: those of the
    record before, and for the contexts it did not have, the sampler's. *)
Lemma aggregate_record_counts sampled_today app_time pending total rec0 c :
  let rec1 := (aggregate_record sampled_today app_time pending total rec0).1 in
  counts_of <$> browser_activity rec1 !! c
    = counts_of <$> (browser_activity rec0 ∪ (browser_seed <$> sampled_today)) !! c ∧
  counts_of <$> application_activity rec1 !! c
    = counts_of <$> (application_activity rec0 ∪ (application_seed <$> app_time)) !! c.
Proof.
  unfold aggregate_record. cbn.
  rewrite seed_browser_activity_union, seed_application_activity_union.
  apply (drain_counts _ (DrainState _ _ _)).
Qed.

Lemma aggregate_record_consistent sampled_today app_time pending total rec0 :
  record_consistent rec0 →
  record_consistent (aggregate_record sampled_today app_time pending total rec0).1.
Proof.
  intros [Hb Ha]. unfold aggregate_record, record_consistent. cbn.
  rewrite seed_browser_activity_union, seed_application_activity_union.
  apply (drain_consistent _ (DrainState _ _ _)); cbn.
  - apply map_Forall_union_2; [done|].
    intros k s [c [<- _]]%lookup_fmap_Some. done.
  - apply map_Forall_union_2; [done|].
    intros k s [c [<- _]]%lookup_fmap_Some. done.
Qed.

Lemma aggregate_logs_today today self :
  day_logs (logs (aggregate_logs today self)) !! today =
  Some (aggregate_record
          (default ∅ (BrowserLogger.browser_time (browser_logger self) !! today))
          (ApplicationLogger.app_time (application_logger self))
          (KeyboardLogger.key_data (keyboard_logger self))
          (IdleTimeLogger.total_idle_time (idle_logger self))
          (default empty_record (day_logs (logs self) !! today))).1.
Proof.
  unfold aggregate_logs. cbn. rewrite lookup_insert_eq, lookup_setdefault_eq. cbn.
  by destruct (day_logs (logs self) !! today).
Qed.

Lemma aggregate_logs_other_day today self date :
  date ≠ today →
  day_logs (logs (aggregate_logs today self)) !! date = day_logs (logs self) !! date.
Proof.
  intros Hne. unfold aggregate_logs. cbn.
  rewrite lookup_insert_ne by done. by apply lookup_setdefault_ne.
Qed.

Lemma record_consistent_empty : record_consistent empty_record.
Proof. split; apply map_Forall_empty. Qed.

(** The aggregation keeps every cached count of the store consistent. *)
Lemma aggregate_logs_consistent today self :
  store_consistent (logs self) → store_consistent (logs (aggregate_logs today self)).
Proof.
  intros Hs date rec Hrec.
  destruct (decide (date = today)) as [->|Hne].
  - rewrite aggregate_logs_today in Hrec. injection Hrec as <-.
    apply aggregate_record_consistent.
    destruct (day_logs (logs self) !! today) as [r|] eqn:Hr; cbn.
    + by apply (Hs today).
    + apply record_consistent_empty.
  - rewrite aggregate_logs_other_day in Hrec by done. by apply (Hs date).
Qed.

End Drain.

Lemma counts_of_fmap_eq (x y : option ProductivityTracker.context_stats) :
  ProductivityTracker.counts_of <$> x = ProductivityTracker.counts_of <$> y →
  ProductivityTracker.time_spent <$> x = ProductivityTracker.time_spent <$> y ∧
  ProductivityTracker.visits <$> x = ProductivityTracker.visits <$> y.
Proof.
  destruct x as [[]|], y as [[]|]; cbn; intros [=]; by subst.
Qed.

(** C4, as stated, fails: with the window "Editor" in the foreground on two
    successive ticks the sampler counts 2, and [time_spent] of its entry in
    today's record is still the 1 of the first tick. *)
Lemma aggregate_logs_time_spent_not_incremented :
  ApplicationLogger.app_time (ProductivityTracker.application_logger Scenario.two_ticks)
    !! "Editor" = Some 2 ∧
  ProductivityTracker.time_spent <$>
    ProductivityTracker.application_entry Scenario.day "Editor" Scenario.one_tick = Some 1 ∧
  ProductivityTracker.time_spent <$>
    ProductivityTracker.application_entry Scenario.day "Editor" Scenario.two_ticks = Some 1 ∧
  ProductivityTracker.time_spent <$>
    ProductivityTracker.application_entry Scenario.day "Editor" Scenario.two_ticks ≠ Some 2.
Proof. vm_compute. repeat split; try done. Qed.

(** C4, amended: the window sampler counts, per application, the ticks on
    which it was in the foreground (one more for the active window at each
    call).  The aggregation gives every application of the sampler's table an
    entry in today's record: an entry it creates takes the sampler's count as
    [time_spent]; an entry that already exists keeps the [time_spent] it
    has. *)
Theorem aggregate_logs_application_time today self app title :
  ProductivityTracker.time_spent <$>
    ProductivityTracker.application_entry today app
      (ProductivityTracker.aggregate_logs today self) =
  match ProductivityTracker.application_entry today app self with
  | Some old => Some (ProductivityTracker.time_spent old)
  | None => ApplicationLogger.app_time (ProductivityTracker.application_logger self) !! app
  end ∧
  let sampler := ProductivityTracker.application_logger self in
  ApplicationLogger.app_time (ApplicationLogger.log_active_app title sampler)
    !! ApplicationLogger.get_active_window title =
  Some (default 0 (ApplicationLogger.app_time sampler
                     !! ApplicationLogger.get_active_window title) + 1).
Proof.
  split; [|by cbn; rewrite lookup_insert_eq].
  unfold ProductivityTracker.application_entry.
  rewrite aggregate_logs_today. cbn [mbind option_bind].
  match goal with |- context [ProductivityTracker.aggregate_record ?s ?a ?p ?t ?r] =>
    destruct (aggregate_record_counts s a p t r app) as [_ H] end.
  apply counts_of_fmap_eq in H as [-> _].
  rewrite lookup_union, lookup_fmap.
  destruct (ProductivityTracker.day_logs (ProductivityTracker.logs self) !! today)
    as [rec|]; cbn.
  - destruct (ProductivityTracker.application_activity rec !! app) as [old|]; cbn.
    + by destruct (ApplicationLogger.app_time _ !! app).
    + by destruct (ApplicationLogger.app_time _ !! app).
  - rewrite lookup_empty. by destruct (ApplicationLogger.app_time _ !! app).
Qed.

(** C7: the aggregation leaves [time_spent] and [visits] of every browser
    domain already in today's record as they are, whatever the sampler
    counts; a domain the record does not have yet is seeded with the
    sampler's counts when the sampler has it today, and stays absent
    otherwise.  Running the aggregation a second time on the result changes
    neither count of any domain. *)
Theorem aggregate_logs_keeps_browser_counts today self domain :
  let after := ProductivityTracker.aggregate_logs today self in
  ProductivityTracker.counts_of <$> ProductivityTracker.browser_entry today domain after =
    match ProductivityTracker.browser_entry today domain self with
    | Some old => Some (ProductivityTracker.counts_of old)
    | None =>
        (λ c, (BrowserLogger.time_spent c, Some (BrowserLogger.visits c))) <$>
        (BrowserLogger.browser_time (ProductivityTracker.browser_logger self) !! today
           ≫= (.!! domain))
    end ∧
  ProductivityTracker.counts_of <$>
    ProductivityTracker.browser_entry today domain
      (ProductivityTracker.aggregate_logs today after) =
  ProductivityTracker.counts_of <$> ProductivityTracker.browser_entry today domain after.
Proof.
  assert (Hone : ∀ s,
    ProductivityTracker.counts_of <$>
      ProductivityTracker.browser_entry today domain
        (ProductivityTracker.aggregate_logs today s) =
    match ProductivityTracker.browser_entry today domain s with
    | Some old => Some (ProductivityTracker.counts_of old)
    | None =>
        (λ c, (BrowserLogger.time_spent c, Some (BrowserLogger.visits c))) <$>
        (BrowserLogger.browser_time (ProductivityTracker.browser_logger s) !! today
           ≫= (.!! domain))
    end).
  { intros s. unfold ProductivityTracker.browser_entry.
    rewrite aggregate_logs_today. cbn [mbind option_bind].
    match goal with |- context [ProductivityTracker.aggregate_record ?b ?a ?p ?t ?r] =>
      destruct (aggregate_record_counts b a p t r domain) as [-> _] end.
    rewrite lookup_union, lookup_fmap.
    destruct (ProductivityTracker.day_logs (ProductivityTracker.logs s) !! today)
      as [rec|]; cbn.
    - destruct (ProductivityTracker.browser_activity rec !! domain) as [old|]; cbn.
      + by destruct (BrowserLogger.browser_time _ !! today) as [m|]; cbn;
          [destruct (m !! domain)|rewrite lookup_empty].
      + by destruct (BrowserLogger.browser_time _ !! today) as [m|]; cbn;
          [destruct (m !! domain)|rewrite lookup_empty].
    - rewrite lookup_empty.
      by destruct (BrowserLogger.browser_time _ !! today) as [m|]; cbn;
          [destruct (m !! domain)|rewrite lookup_empty]. }
  intros after. split; [apply Hone|].
  rewrite (Hone after).
  destruct (ProductivityTracker.browser_entry today domain after) as [e|] eqn:He; [done|].
  pose proof (Hone self) as H1. fold after in H1. rewrite He in H1.
  destruct (ProductivityTracker.browser_entry today domain self); [done|].
  change (ProductivityTracker.browser_logger after)
    with (ProductivityTracker.browser_logger self).
  by rewrite <- H1.
Qed.

(** ** The cached keystroke counts *)

(** The entry the three keys end up in: all of them kept, two counted. *)
Example typed_editor_entry :
  ProductivityTracker.application_entry Scenario.day "Editor" Scenario.typed =
  Some (ProductivityTracker.ContextStats 1 None [Scenario.a; Scenario.a; Scenario.a] 2).
Proof. by vm_compute. Qed.

(** The cached counts stay consistent along every run of the tracker: the
    key listener and the samplers do not touch the store, the aggregation
    recomputes what it extends, and the verification at most empties it. *)
Lemma step_consistent json_dump json_dump_indent st ev :
  ProductivityTracker.store_consistent (ProductivityTracker.logs st.1) →
  ProductivityTracker.store_consistent
    (ProductivityTracker.logs (ProductivityTracker.step json_dump json_dump_indent st ev).1).
Proof.
  intros Hs. destruct ev as [title k|history title reading today|resp today].
  - done.
  - cbn [ProductivityTracker.step fst].
    unfold ProductivityTracker.track_activity_round.
    by apply aggregate_logs_consistent.
  - cbn [ProductivityTracker.step]. unfold ProductivityTracker.save_logs_round,
      ProductivityTracker.verify_change_in_user_on_this_system_uuid,
      ProductivityTracker.reset_logs.
    destruct resp as [r|]; [|done]. destruct st.2 as [old|];
      repeat case_decide; cbn; try done; apply map_Forall_empty.
Qed.

Lemma run_consistent json_dump json_dump_indent events : ∀ st,
  ProductivityTracker.store_consistent (ProductivityTracker.logs st.1) →
  ProductivityTracker.store_consistent
    (ProductivityTracker.logs (ProductivityTracker.run json_dump json_dump_indent events st).1).
Proof.
  induction events as [|ev events IH]; intros st Hs; [done|].
  apply IH. by apply step_consistent.
Qed.

(** In particular along every run that starts on a persistence file of 10
    lines or fewer, that is, on the empty store. *)
Lemma run_from_small_file_consistent json_load json_dump json_dump_indent
    host log_interval idletime uuid text today self events :
  (ProductivityTracker.readlines_length text ≤ 10)%nat →
  ProductivityTracker.init json_load host log_interval idletime (Some uuid)
    (Some text) today = ProductivityTracker.Ok self →
  ProductivityTracker.store_consistent
    (ProductivityTracker.logs
       (ProductivityTracker.run json_dump json_dump_indent events (self, Some text)).1).
Proof.
  intros Hshort Hinit. apply run_consistent. cbn.
  unfold ProductivityTracker.init, ProductivityTracker.load_logs in Hinit.
  rewrite decide_False in Hinit by lia. cbn in Hinit.
  injection Hinit as <-. apply map_Forall_empty.
Qed.

(** ** The metrics payload *)

Lemma obj_lookup_update k v fields k' :
  obj_lookup k' (obj_update k v fields) =
  if decide (k' = k) then Some v else obj_lookup k' fields.
Proof.
  induction fields as [|[k0 v0] fields IH]; cbn.
  - repeat case_decide; congruence.
  - destruct (decide (k0 = k)) as [->|Hne]; cbn.
    + repeat case_decide; congruence.
    + rewrite IH. repeat case_decide; congruence.
Qed.

Lemma obj_update_Forall (P : string * json → Prop) k v fields :
  P (k, v) → Forall P fields → Forall P (obj_update k v fields).
Proof.
  intros Hkv. induction 1 as [|[k0 v0] fields H0 Hf IH]; cbn.
  - by constructor.
  - case_decide; constructor; done.
Qed.

Lemma filtered_payload_lookup (l : list (string * ProductivityTracker.context_stats)) :
  NoDup l.*1 → ∀ acc k,
  obj_lookup k (foldl (λ payload '(app, stats),
                         obj_update app (ProductivityTracker.filtered_entry stats) payload) acc l) =
  match (list_to_map l : gmap string _) !! k with
  | Some stats => Some (ProductivityTracker.filtered_entry stats)
  | None => obj_lookup k acc
  end.
Proof.
  induction l as [|[app stats] l IH]; intros Hnd acc k; [done|].
  apply NoDup_cons in Hnd as [Hnotin Hnd].
  cbn [foldl list_to_map foldr]. rewrite IH by done. cbn.
  destruct (decide (k = app)) as [->|Hne].
  - rewrite lookup_insert_eq.
    rewrite (not_elem_of_list_to_map_1 _ _ Hnotin).
    rewrite obj_lookup_update. by rewrite decide_True.
  - rewrite lookup_insert_ne by done.
    destruct (list_to_map l !! k); [done|].
    rewrite obj_lookup_update. by rewrite decide_False.
Qed.

Lemma filtered_payload_Forall (l : list (string * ProductivityTracker.context_stats)) :
  ∀ acc,
  Forall (λ kv, ∃ n, kv.2 = JObj [("total_key_strokes", JInt n)]) acc →
  Forall (λ kv, ∃ n, kv.2 = JObj [("total_key_strokes", JInt n)])
    (foldl (λ payload '(app, stats),
              obj_update app (ProductivityTracker.filtered_entry stats) payload) acc l).
Proof.
  induction l as [|[app stats] l IH]; intros acc Hacc; [done|].
  cbn [foldl]. apply IH. apply obj_update_Forall; [|done]. by eexists.
Qed.

(** C8: when the verification of a round of [save_logs] went through and
    today's record of the store has application activity, the payload handed
    to [send_metrics] is the object with exactly the fields [uuid], [date],
    [app_details] and [idle_time], in that order; every entry of
    [app_details] is an object with the single field [total_key_strokes],
    and [app_details] has one entry per application of today's record,
    holding that application's cached count.  Neither [keys] nor anything of
    [browser_activity] is in it. *)
Theorem save_logs_payload_filtered json_dump json_dump_indent resp today file self
    self1 file1 rec :
  ProductivityTracker.verify_change_in_user_on_this_system_uuid json_dump
    resp file self = ProductivityTracker.Ok (self1, file1) →
  ProductivityTracker.day_logs (ProductivityTracker.logs self1) !! today = Some rec →
  ProductivityTracker.application_activity rec ≠ ∅ →
  ∃ details,
    (ProductivityTracker.save_logs_round json_dump json_dump_indent
       resp today file self).2 =
    Some (JObj [("uuid", JStr (ProductivityTracker.uuid self));
                ("date", JStr today);
                ("app_details", JObj details);
                ("idle_time", JReal (ProductivityTracker.idle_time rec))]) ∧
    Forall (λ kv, ∃ n, kv.2 = JObj [("total_key_strokes", JInt n)]) details ∧
    Forall (λ kv, json_fields kv.2 = Some ["total_key_strokes"]) details ∧
    ∀ app, obj_lookup app details =
           ProductivityTracker.filtered_entry <$>
           ProductivityTracker.application_activity rec !! app.
Proof.
  intros Hverify Hrec Hne.
  unfold ProductivityTracker.save_logs_round. rewrite Hverify. cbn.
  unfold ProductivityTracker.metrics_payload. rewrite Hrec.
  rewrite decide_False by done.
  assert (ProductivityTracker.uuid self1 = ProductivityTracker.uuid self) as ->.
  { unfold ProductivityTracker.verify_change_in_user_on_this_system_uuid,
      ProductivityTracker.reset_logs in Hverify.
    destruct resp as [r|]; [|done]. destruct file as [old|].
    - repeat case_decide; by injection Hverify as <- _.
    - repeat case_decide; try done. by injection Hverify as <- _. }
  eexists. split; [reflexivity|].
  assert (Hshape : Forall (λ kv, ∃ n, kv.2 = JObj [("total_key_strokes", JInt n)])
    (foldl (λ payload '(app, stats),
              obj_update app (ProductivityTracker.filtered_entry stats) payload)
       [] (map_to_list (ProductivityTracker.application_activity rec))))
    by by apply filtered_payload_Forall.
  split; [done|]. split.
  - eapply Forall_impl; [exact Hshape|]. by intros kv [n ->].
  - intros app.
    rewrite (filtered_payload_lookup _ (NoDup_fst_map_to_list _)).
    rewrite list_to_map_to_list.
    by destruct (ProductivityTracker.application_activity rec !! app).
Qed.

Lemma save_logs_payload_filtered_witness :
  ∃ details,
    (ProductivityTracker.save_logs_round (λ _, "{}") (λ _, "{}")
       (Some Scenario.same_user) Scenario.day (Some "") Scenario.typed).2 =
    Some (JObj [("uuid", JStr (ProductivityTracker.uuid Scenario.typed));
                ("date", JStr Scenario.day);
                ("app_details", JObj details);
                ("idle_time", JReal 0)]) ∧
    Forall (λ kv, ∃ n, kv.2 = JObj [("total_key_strokes", JInt n)]) details ∧
    Forall (λ kv, json_fields kv.2 = Some ["total_key_strokes"]) details ∧
    ∀ app, obj_lookup app details =
           ProductivityTracker.filtered_entry <$>
           ({["Editor" := ProductivityTracker.ContextStats 1 None
                            [Scenario.a; Scenario.a; Scenario.a] 2]} : gmap string _) !! app.
Proof.
  refine (save_logs_payload_filtered (λ _, "{}") (λ _, "{}")
            (Some Scenario.same_user) Scenario.day (Some "") Scenario.typed
            Scenario.typed (Some "")
            (ProductivityTracker.ActivityRecord ∅
               {["Editor" := ProductivityTracker.ContextStats 1 None
                               [Scenario.a; Scenario.a; Scenario.a] 2]} 0) _ _ _).
  - by vm_compute.
  - by vm_compute.
  - intros H. apply (f_equal (λ m, m !! "Editor")) in H. vm_compute in H. discriminate H.
Defined.

(** ** Loading the store and verifying the identity *)

(** A start on a persistence file that holds nothing yet. *)
Example init_on_empty_file :
  ProductivityTracker.init Scenario.read_stored "127.0.0.1" 300 120
    (Some "4C4C4544-0042-3510") (Some "") Scenario.day
  = ProductivityTracker.Ok Scenario.fresh.
Proof. reflexivity. Qed.

(** C5, as stated, fails: with the persistence file absent, loading raises
    and does not produce the empty store. *)
Lemma load_logs_absent_file_raises :
  ProductivityTracker.load_logs Scenario.read_stored None
    = ProductivityTracker.Raise ProductivityTracker.FileNotFoundError ∧
  ProductivityTracker.load_logs Scenario.read_stored None
    ≠ ProductivityTracker.Ok (ProductivityTracker.empty_logs (Some (-1)), false).
Proof. split; [reflexivity|discriminate]. Qed.

(** C5, amended: with the persistence file absent, loading raises
    [FileNotFoundError], which nothing catches, so the start of the tracker
    fails.  A file of 10 lines or fewer gives the empty store
    [{emp_id: -1, day_logs: {}, summary: {}}] without being parsed, and the
    tracker starts on it.  A file of more than 10 lines is parsed: a parse
    failure is raised again (a fatal start-up error), a successful parse
    gives the parsed store and marks it loaded. *)
Theorem load_logs_cases json_load host log_interval idletime uuid today text :
  ProductivityTracker.load_logs json_load None
    = ProductivityTracker.Raise ProductivityTracker.FileNotFoundError ∧
  ProductivityTracker.init json_load host log_interval idletime (Some uuid) None today
    = ProductivityTracker.Raise ProductivityTracker.FileNotFoundError ∧
  ProductivityTracker.load_logs json_load (Some text) =
    (if decide (ProductivityTracker.readlines_length text ≤ 10)%nat
     then ProductivityTracker.Ok (ProductivityTracker.empty_logs (Some (-1)), false)
     else match json_load text with
          | Some l => ProductivityTracker.Ok (l, true)
          | None => ProductivityTracker.Raise ProductivityTracker.JSONDecodeError
          end) ∧
  ProductivityTracker.logs <$>
    ProductivityTracker.result_value
      (ProductivityTracker.init json_load host log_interval idletime (Some uuid)
         (Some text) today) =
    (if decide (ProductivityTracker.readlines_length text ≤ 10)%nat
     then Some (ProductivityTracker.empty_logs (Some (-1)))
     else json_load text).
Proof.
  split; [done|]. split; [done|].
  unfold ProductivityTracker.init, ProductivityTracker.load_logs.
  destruct (decide (10 < ProductivityTracker.readlines_length text)%nat) as [Hlong|Hshort];
    destruct (decide (ProductivityTracker.readlines_length text ≤ 10)%nat); try lia.
  - destruct (json_load text) as [l|]; (split; [done|]); [|done].
    by destruct (ProductivityTracker.day_logs l !! today).
  - done.
Qed.

(** C6, as stated, fails: with the persistence file missing, a response
    other than 200 does not reset the store.  [reset_logs] raises when it
    opens the file, before the assignment, and the tracker that held a day of
    activity still holds it, in the verification and in the save round that
    runs it. *)
Lemma verify_without_file_keeps_store :
  ProductivityTracker.verify_change_in_user_on_this_system_uuid (λ _, "{}")
    (Some (ProductivityTracker.Response 404 None)) None Scenario.typed
  = ProductivityTracker.Raise ProductivityTracker.FileNotFoundError ∧
  ProductivityTracker.logs
    (ProductivityTracker.save_logs_round (λ _, "{}") (λ _, "{}")
       (Some (ProductivityTracker.Response 404 None)) Scenario.day None
       Scenario.typed).1.1
  = ProductivityTracker.logs Scenario.typed ∧
  ProductivityTracker.logs Scenario.typed
  ≠ ProductivityTracker.LogStore (Some (-1)) ∅ ∅.
Proof.
  split; [reflexivity|]. split; [reflexivity|].
  intros H. apply (f_equal (λ l, ProductivityTracker.day_logs l !! Scenario.day)) in H.
  vm_compute in H. discriminate H.
Qed.

(** C6, amended: with the persistence file in place, the verification goes
    through for every response, and the store it leaves in memory is: on a
    response other than 200, the store with [emp_id = -1] and empty
    [day_logs] and [summary]; on a 200 whose [emp_id] differs from the stored
    one, the store with the new [emp_id] and empty [day_logs] and [summary];
    on a 200 with the stored [emp_id], the store as it was.  The samplers,
    the key buffers and the identity of the machine are left alone.  With the
    file missing, the verification raises whenever it would reset, and
    returns with nothing changed on a 200 with the stored [emp_id]. *)
Theorem verify_resets_store json_dump r self :
  (∀ old, ∃ self1 file1,
     ProductivityTracker.verify_change_in_user_on_this_system_uuid json_dump
       (Some r) (Some old) self = ProductivityTracker.Ok (self1, file1) ∧
     ProductivityTracker.logs self1 =
       (if decide (ProductivityTracker.status_code r ≠ 200)
        then ProductivityTracker.LogStore (Some (-1)) ∅ ∅
        else if decide (ProductivityTracker.body_emp_id r
                        ≠ ProductivityTracker.emp_id (ProductivityTracker.logs self))
             then ProductivityTracker.LogStore (ProductivityTracker.body_emp_id r) ∅ ∅
             else ProductivityTracker.logs self) ∧
     ProductivityTracker.uuid self1 = ProductivityTracker.uuid self ∧
     ProductivityTracker.host self1 = ProductivityTracker.host self ∧
     ProductivityTracker.loaded self1 = ProductivityTracker.loaded self ∧
     ProductivityTracker.log_interval self1 = ProductivityTracker.log_interval self ∧
     ProductivityTracker.browser_logger self1 = ProductivityTracker.browser_logger self ∧
     ProductivityTracker.application_logger self1
       = ProductivityTracker.application_logger self ∧
     ProductivityTracker.idle_logger self1 = ProductivityTracker.idle_logger self ∧
     ProductivityTracker.keyboard_logger self1 = ProductivityTracker.keyboard_logger self) ∧
  ProductivityTracker.verify_change_in_user_on_this_system_uuid json_dump
    (Some r) None self =
  (if decide (ProductivityTracker.status_code r = 200 ∧
              ProductivityTracker.body_emp_id r
                = ProductivityTracker.emp_id (ProductivityTracker.logs self))
   then ProductivityTracker.Ok (self, None)
   else ProductivityTracker.Raise ProductivityTracker.FileNotFoundError).
Proof.
  unfold ProductivityTracker.verify_change_in_user_on_this_system_uuid,
    ProductivityTracker.reset_logs.
  split.
  - intros old. repeat case_decide; eexists _, _; (split; [reflexivity|]); done.
  - destruct (decide (ProductivityTracker.status_code r = 200)) as [H200|H200];
      destruct (decide (ProductivityTracker.body_emp_id r
                        = ProductivityTracker.emp_id (ProductivityTracker.logs self)))
        as [Hid|Hid];
      repeat (case_decide; try tauto); done.
Qed.

(** The three outcomes on a tracker that holds a day of activity. *)
Example verify_reset_rule_outcomes :
  let verify r :=
    ProductivityTracker.logs <$>
      ProductivityTracker.result_value
        (fst <$> ProductivityTracker.verify_change_in_user_on_this_system_uuid
                   (λ _, "{}") (Some r) (Some "") Scenario.typed) in
  verify (ProductivityTracker.Response 404 None)
    = Some (ProductivityTracker.LogStore (Some (-1)) ∅ ∅) ∧
  verify (ProductivityTracker.Response 200 (Some 42))
    = Some (ProductivityTracker.LogStore (Some 42) ∅ ∅) ∧
  verify Scenario.same_user = Some (ProductivityTracker.logs Scenario.typed).
Proof. by vm_compute. Qed.

(** ** The idle accumulator across a restart *)

(** C10: when loading the persistence file succeeds and the store it gives
    has a record for today, the tracker starts with that store and with its
    idle accumulator at the [idle_time] of that record (and the logged
    reading at 0); the first aggregation writes that value back as today's
    [idle_time], and a first round of [track_activity] writes what
    [check_idle] makes of it, so the count resumes from the stored value. *)
Theorem init_restores_idle_time json_load host log_interval idletime uuid file today
    l flag rec :
  ProductivityTracker.load_logs json_load file = ProductivityTracker.Ok (l, flag) →
  ProductivityTracker.day_logs l !! today = Some rec →
  ∃ self,
    ProductivityTracker.init json_load host log_interval idletime (Some uuid)
      file today = ProductivityTracker.Ok self ∧
    ProductivityTracker.logs self = l ∧
    ProductivityTracker.idle_logger self =
      IdleTimeLogger.Make idletime (ProductivityTracker.idle_time rec) 0 ∧
    ProductivityTracker.idle_time <$>
      ProductivityTracker.day_logs
        (ProductivityTracker.logs (ProductivityTracker.aggregate_logs today self)) !! today
      = Some (ProductivityTracker.idle_time rec) ∧
    ∀ history title reading,
      ProductivityTracker.idle_time <$>
        ProductivityTracker.day_logs
          (ProductivityTracker.logs
             (ProductivityTracker.track_activity_round history title reading today self))
          !! today
      = Some (IdleTimeLogger.total_idle_time
                (IdleTimeLogger.check_idle reading
                   (IdleTimeLogger.Make idletime (ProductivityTracker.idle_time rec) 0)).1).
Proof.
  intros Hload Hrec.
  assert (flag = true) as ->.
  { unfold ProductivityTracker.load_logs in Hload.
    destruct file as [text|]; [|done]. case_decide.
    - destruct (json_load text); [|done]. by injection Hload as _ <-.
    - injection Hload as <- _. cbn in Hrec. by rewrite lookup_empty in Hrec. }
  unfold ProductivityTracker.init. rewrite Hload, Hrec.
  eexists. split; [reflexivity|]. split; [done|]. split; [done|]. split.
  - by rewrite aggregate_logs_today.
  - intros history title reading. unfold ProductivityTracker.track_activity_round.
    by rewrite aggregate_logs_today.
Qed.

Lemma init_restores_idle_time_witness :
  ∃ self,
    ProductivityTracker.init Scenario.read_stored "127.0.0.1" 300 120
      (Some "4C4C4544-0042-3510") (Some Scenario.eleven_lines) Scenario.day
      = ProductivityTracker.Ok self ∧
    ProductivityTracker.logs self = Scenario.stored ∧
    ProductivityTracker.idle_logger self = IdleTimeLogger.Make 120 150 0 ∧
    ProductivityTracker.idle_time <$>
      ProductivityTracker.day_logs
        (ProductivityTracker.logs (ProductivityTracker.aggregate_logs Scenario.day self))
        !! Scenario.day
      = Some 150%Q ∧
    ∀ history title reading,
      ProductivityTracker.idle_time <$>
        ProductivityTracker.day_logs
          (ProductivityTracker.logs
             (ProductivityTracker.track_activity_round history title reading
                Scenario.day self))
          !! Scenario.day
      = Some (IdleTimeLogger.total_idle_time
                (IdleTimeLogger.check_idle reading (IdleTimeLogger.Make 120 150 0)).1).
Proof.
  refine (init_restores_idle_time Scenario.read_stored "127.0.0.1" 300 120
            "4C4C4544-0042-3510" (Some Scenario.eleven_lines) Scenario.day
            Scenario.stored true (ProductivityTracker.ActivityRecord ∅ ∅ 150) _ _).
  - by vm_compute.
  - by vm_compute.
Defined.

(** * Further properties of the code *)

(** ** The noise filter, in general *)

(** One key of the walk: the run length goes to 1 or up by one, the count
    stays or goes up by one. *)
Lemma walk_step_bounds max_idle w k :
  1 ≤ ProductivityTracker.consecutive_count w →
  let w' := ProductivityTracker.walk_step max_idle w k in
  1 ≤ ProductivityTracker.consecutive_count w' ∧
  ProductivityTracker.consecutive_count w' ≤ ProductivityTracker.consecutive_count w + 1 ∧
  ProductivityTracker.valid_keys_count w ≤ ProductivityTracker.valid_keys_count w' ∧
  ProductivityTracker.valid_keys_count w' ≤ ProductivityTracker.valid_keys_count w + 1 ∧
  (max_idle ≤ 0 →
   ProductivityTracker.valid_keys_count w' = ProductivityTracker.valid_keys_count w) ∧
  (ProductivityTracker.consecutive_count w + 1 ≤ max_idle →
   ProductivityTracker.valid_keys_count w' = ProductivityTracker.valid_keys_count w + 1).
Proof.
  intros Hw. unfold ProductivityTracker.walk_step. cbn.
  repeat case_decide; lia.
Qed.

(** Along a walk the count only grows, by at most one per key, and the run
    length stays at least 1. *)
Lemma walk_bounds max_idle l : ∀ w,
  1 ≤ ProductivityTracker.consecutive_count w →
  let w' := foldl (ProductivityTracker.walk_step max_idle) w l in
  ProductivityTracker.valid_keys_count w ≤ ProductivityTracker.valid_keys_count w' ∧
  ProductivityTracker.valid_keys_count w'
    ≤ ProductivityTracker.valid_keys_count w + Z.of_nat (length l) ∧
  (max_idle ≤ 0 →
   ProductivityTracker.valid_keys_count w' = ProductivityTracker.valid_keys_count w) ∧
  (ProductivityTracker.consecutive_count w + Z.of_nat (length l) ≤ max_idle →
   ProductivityTracker.valid_keys_count w'
     = ProductivityTracker.valid_keys_count w + Z.of_nat (length l)).
Proof.
  induction l as [|k l IH]; intros w Hw; cbn [foldl length].
  - cbn. lia.
  - pose proof (walk_step_bounds max_idle w k Hw) as Hstep. cbn zeta in Hstep.
    specialize (IH (ProductivityTracker.walk_step max_idle w k)).
    cbn zeta in *. lia.
Qed.

(** X1: the count is never negative and never more than the number of keys
    after the first; the first key is never counted. *)
Theorem count_valid_keystrokes_bounds keys max_idle :
  0 ≤ ProductivityTracker.count_valid_keystrokes keys max_idle ∧
  ProductivityTracker.count_valid_keystrokes keys max_idle
    ≤ Z.of_nat (length keys - 1).
Proof.
  unfold ProductivityTracker.count_valid_keystrokes.
  pose proof (walk_bounds max_idle (drop 1 keys) ProductivityTracker.walk_init) as H.
  cbn zeta in H. rewrite length_drop in H. cbn in H. lia.
Qed.

(** X2: when [max_idle] is at least the number of keys, no run can exceed
    it, and every key after the first is counted: the result is the number
    of keys minus one, and 0 for the empty list. *)
Theorem count_valid_keystrokes_no_cap keys max_idle :
  Z.of_nat (length keys) ≤ max_idle →
  ProductivityTracker.count_valid_keystrokes keys max_idle
  = Z.max 0 (Z.of_nat (length keys) - 1).
Proof.
  intros Hcap. unfold ProductivityTracker.count_valid_keystrokes.
  destruct keys as [|k0 keys]; [done|].
  change (drop 1 (k0 :: keys)) with keys. cbn [length] in *.
  pose proof (walk_bounds max_idle keys ProductivityTracker.walk_init) as H.
  cbn zeta in H. cbn in H.
  destruct H as (_ & _ & _ & H); [lia|]. rewrite H; lia.
Qed.

Lemma count_valid_keystrokes_no_cap_witness :
  ProductivityTracker.count_valid_keystrokes
    [Some "h"; Some "e"; Some "l"; Some "l"; Some "o"] 5 = 4.
Proof.
  apply (count_valid_keystrokes_no_cap
           [Some "h"; Some "e"; Some "l"; Some "l"; Some "o"] 5).
  cbn. lia.
Defined.

(** X3: with a cap of zero or less nothing is counted. *)
Theorem count_valid_keystrokes_cap_zero keys max_idle :
  max_idle ≤ 0 → ProductivityTracker.count_valid_keystrokes keys max_idle = 0.
Proof.
  intros Hcap. unfold ProductivityTracker.count_valid_keystrokes.
  pose proof (walk_bounds max_idle (drop 1 keys) ProductivityTracker.walk_init) as H.
  cbn zeta in H. destruct H as (_ & _ & H & _); [cbn; lia|]. by rewrite H.
Qed.

Lemma count_valid_keystrokes_cap_zero_witness :
  ProductivityTracker.count_valid_keystrokes [Some "h"; Some "i"; Some "!"] 0 = 0.
Proof. apply count_valid_keystrokes_cap_zero. lia. Defined.

(** A run of one key that goes on, from a walk that is in that run. *)
Lemma walk_replicate max_idle (s : string) n : ∀ v c,
  ProductivityTracker.valid_keys_count
    (foldl (ProductivityTracker.walk_step max_idle)
       (ProductivityTracker.Walk v c (Some s)) (replicate n (Some s)))
  = v + Z.max 0 (Z.min (Z.of_nat n) (max_idle - c)).
Proof.
  induction n as [|n IH]; intros v c.
  - cbn. lia.
  - cbn [replicate foldl]. unfold ProductivityTracker.walk_step at 2. cbn.
    rewrite !(decide_True (P := Some s = Some s)) by done.
    rewrite IH. case_decide; lia.
Qed.

(** X4: a key held down.  Of [n + 1] presses of one key the filter counts
    [n] when [n] is within [max_idle], and [max_idle] otherwise (0 when
    [max_idle] is negative): the first press is not counted, and the run is
    cut at the cap. *)
Theorem count_valid_keystrokes_held_key (s : string) n max_idle :
  ProductivityTracker.count_valid_keystrokes (replicate (S n) (Some s)) max_idle
  = Z.max 0 (Z.min (Z.of_nat n) max_idle).
Proof.
  unfold ProductivityTracker.count_valid_keystrokes.
  change (drop 1 (replicate (S n) (Some s))) with (replicate n (Some s)).
  destruct n as [|n]; [cbn; lia|].
  cbn [replicate foldl].
  assert (ProductivityTracker.walk_step max_idle ProductivityTracker.walk_init (Some s)
          = ProductivityTracker.Walk (if decide (1 ≤ max_idle) then 1 else 0) 1 (Some s))
    as ->.
  { unfold ProductivityTracker.walk_step. cbn. by repeat case_decide. }
  rewrite walk_replicate. case_decide; lia.
Qed.

(** Two walks over the same keys under two caps are in the same run and the
    one with the larger cap has counted at least as much. *)
Lemma walk_monotone m m' l : m ≤ m' → ∀ w w',
  ProductivityTracker.consecutive_count w = ProductivityTracker.consecutive_count w' →
  ProductivityTracker.last_key w = ProductivityTracker.last_key w' →
  ProductivityTracker.valid_keys_count w ≤ ProductivityTracker.valid_keys_count w' →
  ProductivityTracker.valid_keys_count (foldl (ProductivityTracker.walk_step m) w l)
  ≤ ProductivityTracker.valid_keys_count (foldl (ProductivityTracker.walk_step m') w' l).
Proof.
  intros Hm. induction l as [|k l IH]; intros w w' Hc Hk Hv; [done|].
  cbn [foldl]. apply IH; unfold ProductivityTracker.walk_step; cbn; rewrite ?Hc, ?Hk.
  - done.
  - done.
  - repeat case_decide; lia.
Qed.

(** X5: raising [max_idle] never lowers the count. *)
Theorem count_valid_keystrokes_monotone keys m m' :
  m ≤ m' →
  ProductivityTracker.count_valid_keystrokes keys m
  ≤ ProductivityTracker.count_valid_keystrokes keys m'.
Proof.
  intros Hm. unfold ProductivityTracker.count_valid_keystrokes.
  by apply walk_monotone.
Qed.

Lemma count_valid_keystrokes_monotone_witness :
  ProductivityTracker.count_valid_keystrokes (replicate 30 (Some "x")) 3
  ≤ ProductivityTracker.count_valid_keystrokes (replicate 30 (Some "x")) 20.
Proof. apply count_valid_keystrokes_monotone. lia. Defined.

(** ** The domain of a url *)

Lemma split_slash_free a :
  BrowserLogger.slash_free a = true → BrowserLogger.split_slash a = [a].
Proof.
  induction a as [|c a IH]; [done|].
  cbn [BrowserLogger.split_slash BrowserLogger.slash_free String.append].
  intros [Hc Ha]%andb_true_iff.
  apply negb_true_iff in Hc. rewrite Hc. by rewrite IH.
Qed.

Lemma split_slash_app a b :
  BrowserLogger.slash_free a = true →
  BrowserLogger.split_slash (a +:+ String "/" b) = a :: BrowserLogger.split_slash b.
Proof.
  induction a as [|c a IH]; [done|].
  change (String c a +:+ String "/" b) with (String c (a +:+ String "/" b)).
  cbn [BrowserLogger.split_slash BrowserLogger.slash_free].
  intros [Hc Ha]%andb_true_iff.
  apply negb_true_iff in Hc. rewrite Hc. by rewrite IH.
Qed.

Lemma has_double_slash_app a b :
  BrowserLogger.has_double_slash (a +:+ String "/" (String "/" b)) = true.
Proof.
  induction a as [|c a IH]; [done|].
  change (String c a +:+ String "/" (String "/" b))
    with (String c (a +:+ String "/" (String "/" b))).
  cbn [BrowserLogger.has_double_slash].
  destruct (a +:+ String "/" (String "/" b)) eqn:Heq; [by destruct a|].
  rewrite IH. apply orb_true_r.
Qed.

(** X7: the domain of [scheme://host] and of [scheme://host/path] is
    [host], when neither the scheme nor the host contains a slash; with an
    empty host, as in [file:///C:/notes.txt], the domain is the empty
    text. *)
Theorem domain_of_scheme_host scheme host path :
  BrowserLogger.slash_free scheme = true →
  BrowserLogger.slash_free host = true →
  BrowserLogger.domain_of (scheme +:+ "//" +:+ host) = Some host ∧
  BrowserLogger.domain_of (scheme +:+ "//" +:+ host +:+ "/" +:+ path) = Some host ∧
  BrowserLogger.domain_of (scheme +:+ "///" +:+ path) = Some "".
Proof.
  intros Hscheme Hhost. unfold BrowserLogger.domain_of.
  change ("//" +:+ host) with (String "/" (String "/" host)).
  change ("//" +:+ host +:+ "/" +:+ path)
    with (String "/" (String "/" (host +:+ String "/" path))).
  change ("///" +:+ path) with (String "/" (String "/" (String "/" path))).
  rewrite !has_double_slash_app, !split_slash_app by done.
  change (BrowserLogger.split_slash (String "/" host))
    with ("" :: BrowserLogger.split_slash host).
  change (BrowserLogger.split_slash (String "/" (host +:+ String "/" path)))
    with ("" :: BrowserLogger.split_slash (host +:+ String "/" path)).
  change (BrowserLogger.split_slash (String "/" (String "/" path)))
    with ("" :: "" :: BrowserLogger.split_slash path).
  rewrite split_slash_free, split_slash_app by done. done.
Qed.

Lemma domain_of_scheme_host_witness :
  BrowserLogger.domain_of ("https:" +:+ "//" +:+ "example.org") = Some "example.org" ∧
  BrowserLogger.domain_of ("https:" +:+ "//" +:+ "example.org" +:+ "/" +:+ "a/b?q=1")
    = Some "example.org" ∧
  BrowserLogger.domain_of ("https:" +:+ "///" +:+ "a/b?q=1") = Some "".
Proof. by apply (domain_of_scheme_host "https:" "example.org" "a/b?q=1"). Defined.

Lemma split_slash_pieces s :
  Forall (λ piece, BrowserLogger.slash_free piece = true) (BrowserLogger.split_slash s).
Proof.
  induction s as [|c s IH]; [by repeat constructor|].
  cbn [BrowserLogger.split_slash].
  destruct (Ascii.eqb c "/") eqn:Hc; [by constructor|].
  destruct (BrowserLogger.split_slash s) as [|piece pieces].
  - repeat constructor. cbn [BrowserLogger.slash_free]. by rewrite Hc.
  - apply Forall_cons in IH as [Hpiece Hpieces]. constructor; [|done].
    cbn [BrowserLogger.slash_free]. by rewrite Hc, Hpiece.
Qed.

(** X8: a domain taken from a url that contains "//" has no slash in it. *)
Theorem domain_of_slash_free url domain :
  BrowserLogger.has_double_slash url = true →
  BrowserLogger.domain_of url = Some domain →
  BrowserLogger.slash_free domain = true.
Proof.
  unfold BrowserLogger.domain_of. intros -> Hdomain.
  pose proof (split_slash_pieces url) as Hpieces.
  by apply (Forall_lookup_1 _ _ _ _ Hpieces Hdomain).
Qed.

Lemma domain_of_slash_free_witness :
  BrowserLogger.slash_free "docs.example.org:8080" = true.
Proof.
  apply (domain_of_slash_free "http://docs.example.org:8080/a//b/" "docs.example.org:8080");
    reflexivity.
Defined.

(** ** The samplers over time *)

Lemma log_entries_other_day today history : ∀ self self',
  BrowserLogger.log_entries today self history = Some self' →
  ∀ date domain, date ≠ today →
  BrowserLogger.counts_at date domain (BrowserLogger.browser_time self')
  = BrowserLogger.counts_at date domain (BrowserLogger.browser_time self).
Proof.
  induction history as [|e history IH]; intros self self' Hrun date domain Hne.
  - by injection Hrun as <-.
  - cbn [BrowserLogger.log_entries] in Hrun. unfold BrowserLogger.log_entry in Hrun.
    destruct (BrowserLogger.domain_of (BrowserLogger.url e)) as [d|]; [|done].
    cbn [mbind option_bind] in Hrun.
    rewrite (IH _ _ Hrun date domain Hne). cbn [BrowserLogger.browser_time].
    case_decide; [|done]. rewrite counts_at_count_entry.
    by rewrite decide_False by (intros [? ?]; done).
Qed.

(** What one call of the sampler adds, at every date and domain. *)
Lemma log_browser_activity_counts history today self date domain :
  let after := (BrowserLogger.log_browser_activity history today self).1 in
  BrowserLogger.counts_at date domain (BrowserLogger.browser_time after) =
    BrowserLogger.add_counts
      (if decide (date = today)
       then BrowserLogger.entries_for today domain history else 0)
      (BrowserLogger.counts_at date domain (BrowserLogger.browser_time self)) ∧
  BrowserLogger.counts_at date domain (BrowserLogger.browser_history after) =
    BrowserLogger.add_counts (BrowserLogger.entries_for date domain history)
      (BrowserLogger.counts_at date domain (BrowserLogger.browser_history self)).
Proof.
  unfold BrowserLogger.log_browser_activity.
  destruct (log_entries_counts today history
    (BrowserLogger.Make (BrowserLogger.ensure_date today (BrowserLogger.browser_time self))
       (BrowserLogger.browser_history self))) as (s' & Hrun & Htime & Hhist).
  rewrite Hrun. cbn [fst]. split.
  - destruct (decide (date = today)) as [->|Hne].
    + rewrite Htime. cbn. by rewrite counts_at_ensure_date.
    + rewrite (log_entries_other_day _ _ _ _ Hrun date domain Hne). cbn.
      by rewrite counts_at_ensure_date, add_counts_zero.
  - by rewrite Hhist.
Qed.

Lemma entries_for_nonneg date domain history :
  0 ≤ BrowserLogger.entries_for date domain history.
Proof. unfold BrowserLogger.entries_for. lia. Qed.

Lemma entries_for_app date domain h1 h2 :
  BrowserLogger.entries_for date domain (h1 ++ h2)%list
  = BrowserLogger.entries_for date domain h1 + BrowserLogger.entries_for date domain h2.
Proof.
  unfold BrowserLogger.entries_for. rewrite filter_app, length_app. lia.
Qed.

(** The sum of the entries of the snapshots sampled on [date], and of all
    the snapshots, for a date and domain. *)
Lemma sample_all_counts calls : ∀ self date domain,
  let after := BrowserLogger.sample_all calls self in
  BrowserLogger.counts_at date domain (BrowserLogger.browser_time after) =
    BrowserLogger.add_counts
      (BrowserLogger.entries_for date domain
         (concat (fst <$> filter (λ call, call.2 = date) calls)))
      (BrowserLogger.counts_at date domain (BrowserLogger.browser_time self)) ∧
  BrowserLogger.counts_at date domain (BrowserLogger.browser_history after) =
    BrowserLogger.add_counts
      (BrowserLogger.entries_for date domain (concat (fst <$> calls)))
      (BrowserLogger.counts_at date domain (BrowserLogger.browser_history self)).
Proof.
  induction calls as [|[history today] calls IH]; intros self date domain.
  - cbn. by rewrite !add_counts_zero.
  - cbn [BrowserLogger.sample_all foldl]. cbn [fst snd].
    destruct (IH (BrowserLogger.log_browser_activity history today self).1 date domain)
      as [Htime Hhist]. unfold BrowserLogger.sample_all in Htime, Hhist.
    rewrite Htime, Hhist.
    destruct (log_browser_activity_counts history today self date domain) as [-> ->].
    rewrite !add_counts_add, filter_cons. cbn [snd fmap list_fmap concat].
    rewrite entries_for_app. split; [|done].
    destruct (decide (date = today)) as [->|Hne].
    + rewrite decide_True by done. cbn [fmap list_fmap fst concat].
      by rewrite entries_for_app.
    + rewrite decide_False by done. by rewrite Z.add_0_l.
Qed.

(** X9: what the browser sampler holds after any series of calls, each with
    its own history snapshot and date, from a new sampler.  In the all-time
    view each counter is the number of matching entries over all the
    snapshots; in the per-day view it is that number over the snapshots
    sampled on that very date.  So [time_spent] always equals [visits], and
    the per-day view never exceeds the all-time view. *)
Theorem sample_all_from_init calls date domain :
  let after := BrowserLogger.sample_all calls BrowserLogger.init in
  let on_date :=
    BrowserLogger.entries_for date domain
      (concat (fst <$> filter (λ call, call.2 = date) calls)) in
  let all_time := BrowserLogger.entries_for date domain (concat (fst <$> calls)) in
  BrowserLogger.counts_at date domain (BrowserLogger.browser_time after)
    = BrowserLogger.Counts on_date on_date ∧
  BrowserLogger.counts_at date domain (BrowserLogger.browser_history after)
    = BrowserLogger.Counts all_time all_time ∧
  0 ≤ on_date ≤ all_time.
Proof.
  cbn zeta.
  destruct (sample_all_counts calls BrowserLogger.init date domain) as [-> ->].
  split; [done|]. split; [done|]. split; [apply entries_for_nonneg|].
  unfold BrowserLogger.entries_for. apply inj_le.
  induction calls as [|[history today] calls IH]; [done|].
  rewrite filter_cons. cbn [snd fmap list_fmap concat fst].
  rewrite filter_app, length_app.
  case_decide; cbn [fmap list_fmap concat fst].
  - rewrite filter_app, length_app. lia.
  - lia.
Qed.

Lemma log_all_lookup titles : ∀ self window,
  ApplicationLogger.app_time (ApplicationLogger.log_all titles self) !! window
  = let seen :=
      length (filter
        (λ title, ApplicationLogger.get_active_window title = window) titles) in
    if decide (seen = 0%nat) then ApplicationLogger.app_time self !! window
    else Some (default 0 (ApplicationLogger.app_time self !! window) + Z.of_nat seen).
Proof.
  induction titles as [|title titles IH]; intros self window.
  - done.
  - cbn [ApplicationLogger.log_all foldl]. unfold ApplicationLogger.log_all in IH.
    rewrite IH. cbn zeta. rewrite filter_cons.
    unfold ApplicationLogger.log_active_app. cbn [ApplicationLogger.app_time].
    destruct (decide (ApplicationLogger.get_active_window title = window)) as [Heq|Hne].
    + rewrite Heq, lookup_insert_eq. cbn [default length].
      rewrite (decide_False (P := S _ = 0%nat)) by done.
      case_decide as Hseen; [rewrite Hseen|]; f_equal; unfold id; lia.
    + by rewrite lookup_insert_ne.
Qed.

(** X10: after any series of ticks, the window sampler holds for each window
    title the number of ticks on which it was the answer of the query, a
    failed query counting for the title "Unknown"; a title never seen has no
    entry. *)
Theorem log_all_from_init titles window :
  let seen :=
    length (filter (λ title, ApplicationLogger.get_active_window title = window) titles) in
  ApplicationLogger.app_time (ApplicationLogger.log_all titles ApplicationLogger.init)
    !! window
  = if decide (seen = 0%nat) then None else Some (Z.of_nat seen).
Proof.
  rewrite log_all_lookup. cbn zeta.
  cbn [ApplicationLogger.init ApplicationLogger.app_time]. rewrite lookup_empty.
  case_decide; [done|]; f_equal; cbn [default]; lia.
Qed.

Lemma press_all_buffer presses : ∀ self window,
  default [] (KeyboardLogger.key_data (KeyboardLogger.press_all presses self) !! window)
  = (default [] (KeyboardLogger.key_data self !! window)
     ++ (snd <$> filter
           (λ press, ApplicationLogger.get_active_window press.1 = window) presses))%list.
Proof.
  induction presses as [|[title key_char] presses IH]; intros self window.
  - cbn. by rewrite app_nil_r.
  - cbn [KeyboardLogger.press_all foldl]. unfold KeyboardLogger.press_all in IH.
    rewrite IH, filter_cons. unfold KeyboardLogger.on_press.
    cbn [KeyboardLogger.key_data fst snd].
    case_decide as Heq; [rewrite Heq|].
    + rewrite lookup_insert_eq. cbn [default fmap list_fmap snd]. unfold id.
      by rewrite <- app_assoc.
    + by rewrite lookup_insert_ne.
Qed.

(** X11: the key listener keeps, per window title, the keys pressed while
    that window was the answer of the query, in the order they were pressed;
    keys pressed while the query failed go to the title "Unknown". *)
Theorem press_all_from_init presses window :
  default [] (KeyboardLogger.key_data
                (KeyboardLogger.press_all presses KeyboardLogger.init) !! window)
  = snd <$> filter
      (λ press, ApplicationLogger.get_active_window press.1 = window) presses.
Proof.
  rewrite press_all_buffer. cbn [KeyboardLogger.init KeyboardLogger.key_data].
  by rewrite lookup_empty.
Qed.

(** ** The aggregation, exactly *)

Section DrainExact.
Import ProductivityTracker.

Lemma drain_step_lookup st context ks c :
  let st1 := drain_step st (context, ks) in
  drain_browser st1 !! c =
    (if decide (c = context) then extend_keys ks <$> drain_browser st !! c
     else drain_browser st !! c) ∧
  drain_application st1 !! c =
    (if decide (c = context)
     then (λ e, if drain_browser st !! c is Some _ then e else extend_keys ks e)
            <$> drain_application st !! c
     else drain_application st !! c) ∧
  drain_key_data st1 !! c =
    (if decide (c = context)
     then Some (drop (length ks) (default [] (drain_key_data st !! c)))
     else drain_key_data st !! c).
Proof.
  cbn zeta. unfold drain_step.
  destruct (decide (c = context)) as [->|Hne].
  - destruct (drain_browser st !! context) as [sb|] eqn:Hb;
      [|destruct (drain_application st !! context) as [sa|] eqn:Ha];
      cbn; rewrite ?lookup_insert_eq, ?Hb, ?Ha; try done.
    by destruct (drain_application st !! context).
  - destruct (drain_browser st !! context) as [sb|] eqn:Hb;
      [|destruct (drain_application st !! context) as [sa|] eqn:Ha];
      cbn; by rewrite ?lookup_insert_ne by done.
Qed.

Lemma drain_lookup l : NoDup l.*1 → ∀ st c,
  let st' := foldl drain_step st l in
  let buffer := (list_to_map l : gmap string (list key_symbol)) !! c in
  drain_browser st' !! c = (λ e, fed_with buffer e) <$> drain_browser st !! c ∧
  drain_application st' !! c =
    (λ e, if drain_browser st !! c is Some _ then e else fed_with buffer e)
      <$> drain_application st !! c ∧
  drain_key_data st' !! c =
    (if buffer is Some ks
     then Some (drop (length ks) (default [] (drain_key_data st !! c)))
     else drain_key_data st !! c).
Proof.
  induction l as [|[context ks] l IH]; intros Hnd st c; cbn zeta.
  - cbn. rewrite lookup_empty. cbn.
    split; [by destruct (drain_browser st !! c)|].
    split; [|done].
    by destruct (drain_application st !! c), (drain_browser st !! c).
  - apply NoDup_cons in Hnd as [Hnotin Hnd].
    cbn [foldl list_to_map foldr]. cbn [uncurry fst snd].
    destruct (IH Hnd (drain_step st (context, ks)) c) as (Hb & Ha & Hk).
    destruct (drain_step_lookup st context ks c) as (Hb1 & Ha1 & Hk1).
    cbn zeta in *. rewrite Hb, Ha, Hk, Hb1, Ha1, Hk1. clear Hb Ha Hk Hb1 Ha1 Hk1.
    destruct (decide (c = context)) as [->|Hne].
    + rewrite lookup_insert_eq, (not_elem_of_list_to_map_1 _ _ Hnotin). cbn.
      split; [by destruct (drain_browser st !! context)|]. split; [|done].
      by destruct (drain_application st !! context), (drain_browser st !! context).
    + by rewrite lookup_insert_ne.
Qed.

(** The record and the buffers the aggregation leaves, entry by entry:
    [seeded] is what the two loops of [setdefault] make of the record. *)
Lemma aggregate_record_lookup sampled_today app_time pending total rec0 c :
  let r := aggregate_record sampled_today app_time pending total rec0 in
  let browser0 := browser_activity rec0 ∪ (browser_seed <$> sampled_today) in
  let application0 := application_activity rec0 ∪ (application_seed <$> app_time) in
  browser_activity r.1 !! c = (λ e, fed_with (pending !! c) e) <$> browser0 !! c ∧
  application_activity r.1 !! c =
    (λ e, if browser0 !! c is Some _ then e else fed_with (pending !! c) e)
      <$> application0 !! c ∧
  r.2 !! c = (λ _, []) <$> pending !! c ∧
  idle_time r.1 = total.
Proof.
  cbn zeta. unfold aggregate_record. cbn [fst snd browser_activity application_activity].
  rewrite seed_browser_activity_union, seed_application_activity_union.
  destruct (drain_lookup (map_to_list pending) (NoDup_fst_map_to_list pending)
              (DrainState (browser_activity rec0 ∪ (browser_seed <$> sampled_today))
                 (application_activity rec0 ∪ (application_seed <$> app_time)) pending) c)
    as (Hb & Ha & Hk).
  cbn zeta in *. rewrite list_to_map_to_list in *. cbn in Hb, Ha, Hk.
  rewrite Hb, Ha, Hk. repeat split.
  destruct (pending !! c) as [ks|]; cbn; [|done]. by rewrite drop_all.
Qed.

End DrainExact.

Lemma fed_with_twice buffer stats :
  ProductivityTracker.fed_with ((λ _, []) <$> buffer)
    (ProductivityTracker.fed_with buffer stats)
  = ProductivityTracker.fed_with buffer stats.
Proof.
  destruct buffer as [ks|]; [|done]. cbn.
  unfold ProductivityTracker.extend_keys. cbn. by rewrite app_nil_r.
Qed.


(** The same, as a helper for the properties below. *)
Lemma aggregate_logs_lookup today self context :
  let after := ProductivityTracker.aggregate_logs today self in
  let buffer := ProductivityTracker.pending_keys context self in
  ProductivityTracker.browser_entry today context after =
    ProductivityTracker.fed_with buffer
      <$> ProductivityTracker.seeded_browser today self !! context ∧
  ProductivityTracker.application_entry today context after =
    (λ stats,
       if ProductivityTracker.seeded_browser today self !! context is Some _
       then stats else ProductivityTracker.fed_with buffer stats)
      <$> ProductivityTracker.seeded_application today self !! context ∧
  ProductivityTracker.pending_keys context after = (λ _, []) <$> buffer.
Proof.
  cbn zeta. unfold ProductivityTracker.browser_entry, ProductivityTracker.application_entry,
    ProductivityTracker.pending_keys.
  rewrite aggregate_logs_today. cbn [mbind option_bind].
  match goal with |- context [ProductivityTracker.aggregate_record ?b ?a ?p ?t ?r] =>
    destruct (aggregate_record_lookup b a p t r context) as (Hb & Ha & Hk & _) end.
  split; [exact Hb|]. split; [exact Ha|].
  unfold ProductivityTracker.aggregate_logs.
  cbn [ProductivityTracker.keyboard_logger KeyboardLogger.key_data].
  rewrite lookup_setdefault_eq. cbn [default].
  destruct (ProductivityTracker.day_logs (ProductivityTracker.logs self) !! today);
    exact Hk.
Qed.

Lemma aggregate_logs_empties_buffers_eq today self :
  KeyboardLogger.key_data
    (ProductivityTracker.keyboard_logger (ProductivityTracker.aggregate_logs today self))
  = (λ _, []) <$> KeyboardLogger.key_data (ProductivityTracker.keyboard_logger self).
Proof.
  apply map_eq. intros c. rewrite lookup_fmap.
  by destruct (aggregate_logs_lookup today self c) as (_ & _ & Hk).
Qed.

(** X13: every pending buffer is emptied by the aggregation, whether or not
    its context has an entry in today's record, and no buffer is removed or
    added. *)
Theorem aggregate_logs_empties_buffers today self :
  KeyboardLogger.key_data
    (ProductivityTracker.keyboard_logger (ProductivityTracker.aggregate_logs today self))
  = (λ _, []) <$> KeyboardLogger.key_data (ProductivityTracker.keyboard_logger self).
Proof.
  apply map_eq. intros context. rewrite lookup_fmap.
  destruct (aggregate_logs_lookup today self context) as (_ & _ & Hbuffer).
  exact Hbuffer.
Qed.

Lemma today_record_lookup today self context :
  ProductivityTracker.browser_activity (ProductivityTracker.today_record today self)
    !! context = ProductivityTracker.browser_entry today context self ∧
  ProductivityTracker.application_activity (ProductivityTracker.today_record today self)
    !! context = ProductivityTracker.application_entry today context self.
Proof.
  unfold ProductivityTracker.today_record, ProductivityTracker.browser_entry,
    ProductivityTracker.application_entry.
  by destruct (ProductivityTracker.day_logs (ProductivityTracker.logs self) !! today).
Qed.

Lemma keys_fed_with buffer stats :
  ProductivityTracker.keys (ProductivityTracker.fed_with buffer stats)
  = (ProductivityTracker.keys stats ++ default [] buffer)%list.
Proof. destruct buffer; cbn; [done|by rewrite app_nil_r]. Qed.

(** X14: no key of a browser context is lost or reordered.  The keys of a
    domain's entry after the aggregation are the keys the entry had before
    (none when the entry was created by this aggregation) followed by the
    pending keys of that name. *)
Theorem aggregate_logs_browser_keys today self domain stats :
  ProductivityTracker.browser_entry today domain
    (ProductivityTracker.aggregate_logs today self) = Some stats →
  ProductivityTracker.keys stats =
  (from_option ProductivityTracker.keys []
     (ProductivityTracker.browser_entry today domain self)
   ++ default [] (ProductivityTracker.pending_keys domain self))%list.
Proof.
  destruct (aggregate_logs_lookup today self domain) as (-> & _ & _).
  unfold ProductivityTracker.seeded_browser. rewrite lookup_union, lookup_fmap.
  destruct (today_record_lookup today self domain) as [-> _].
  destruct (ProductivityTracker.browser_entry today domain self) as [old|]; cbn.
  - destruct (_ !! domain); cbn; intros [= <-]; apply keys_fed_with.
  - destruct (_ !! domain); cbn; [|done]. intros [= <-]. apply keys_fed_with.
Qed.

Lemma aggregate_logs_browser_keys_witness :
  [Scenario.a; Scenario.a] =
  (from_option ProductivityTracker.keys []
     (ProductivityTracker.browser_entry Scenario.day "example.org" Scenario.browsing)
   ++ default [] (ProductivityTracker.pending_keys "example.org" Scenario.browsing))%list.
Proof.
  apply (aggregate_logs_browser_keys Scenario.day Scenario.browsing "example.org"
           (ProductivityTracker.ContextStats 1 (Some 1) [Scenario.a; Scenario.a] 1)).
  by vm_compute.
Defined.

(** X15: no key of an application context is lost or reordered, unless a
    browser domain has the same name.  When today's browser activity has no
    entry of that name after the aggregation, the keys of the application's
    entry are the keys it had before (none for a new entry) followed by the
    pending keys of that name; when it has one, the application's entry keeps
    the keys it had. *)
Theorem aggregate_logs_application_keys today self app stats :
  ProductivityTracker.application_entry today app
    (ProductivityTracker.aggregate_logs today self) = Some stats →
  ProductivityTracker.keys stats =
  (from_option ProductivityTracker.keys []
     (ProductivityTracker.application_entry today app self)
   ++ (if ProductivityTracker.browser_entry today app
            (ProductivityTracker.aggregate_logs today self) is Some _
       then [] else default [] (ProductivityTracker.pending_keys app self)))%list.
Proof.
  destruct (aggregate_logs_lookup today self app) as (-> & -> & _).
  unfold ProductivityTracker.seeded_application. rewrite lookup_union, lookup_fmap.
  destruct (today_record_lookup today self app) as [_ ->].
  destruct (ProductivityTracker.seeded_browser today self !! app) as [b|]; cbn;
    destruct (ProductivityTracker.application_entry today app self) as [old|]; cbn;
    destruct (_ !! app); cbn; intros [= <-];
    rewrite ?keys_fed_with, ?app_nil_r; done.
Qed.

Lemma aggregate_logs_application_keys_witness :
  [Scenario.a; Scenario.a; Scenario.a] =
  (from_option ProductivityTracker.keys []
     (ProductivityTracker.application_entry Scenario.day "Editor" Scenario.typing)
   ++ (if ProductivityTracker.browser_entry Scenario.day "Editor"
            (ProductivityTracker.aggregate_logs Scenario.day Scenario.typing) is Some _
       then [] else default [] (ProductivityTracker.pending_keys "Editor" Scenario.typing)))%list.
Proof.
  apply (aggregate_logs_application_keys Scenario.day Scenario.typing "Editor"
           (ProductivityTracker.ContextStats 1 None
              [Scenario.a; Scenario.a; Scenario.a] 2)).
  by vm_compute.
Defined.

(** X16: keys typed in a context that no sampler has seen are discarded.
    When today's record has no entry of that name, the browser sampler has
    not seen it today and the window sampler has never seen it, the
    aggregation creates no entry for it and still empties its buffer. *)
Theorem aggregate_logs_drops_unsampled today self context ks :
  ProductivityTracker.pending_keys context self = Some ks →
  ProductivityTracker.browser_entry today context self = None →
  ProductivityTracker.application_entry today context self = None →
  BrowserLogger.browser_time (ProductivityTracker.browser_logger self) !! today
    ≫= (.!! context) = None →
  ApplicationLogger.app_time (ProductivityTracker.application_logger self) !! context
    = None →
  let after := ProductivityTracker.aggregate_logs today self in
  ProductivityTracker.browser_entry today context after = None ∧
  ProductivityTracker.application_entry today context after = None ∧
  ProductivityTracker.pending_keys context after = Some [].
Proof.
  intros Hks Hb Ha Hsb Hsa. cbn zeta.
  destruct (aggregate_logs_lookup today self context) as (-> & -> & ->).
  rewrite Hks. unfold ProductivityTracker.seeded_browser,
    ProductivityTracker.seeded_application.
  rewrite !lookup_union, !lookup_fmap.
  destruct (today_record_lookup today self context) as [-> ->].
  rewrite Hb, Ha, Hsa.
  destruct (BrowserLogger.browser_time (ProductivityTracker.browser_logger self) !! today)
    as [m|]; cbn in *; [by rewrite Hsb|by rewrite lookup_empty].
Qed.

Lemma aggregate_logs_drops_unsampled_witness :
  let after := ProductivityTracker.aggregate_logs Scenario.day Scenario.unsampled in
  ProductivityTracker.browser_entry Scenario.day "Terminal" after = None ∧
  ProductivityTracker.application_entry Scenario.day "Terminal" after = None ∧
  ProductivityTracker.pending_keys "Terminal" after = Some [].
Proof.
  apply (aggregate_logs_drops_unsampled Scenario.day Scenario.unsampled "Terminal"
           [Scenario.a]); by vm_compute.
Defined.

Lemma seeded_again today self :
  ProductivityTracker.seeded_browser today (ProductivityTracker.aggregate_logs today self)
    = ProductivityTracker.browser_activity
        (ProductivityTracker.today_record today
           (ProductivityTracker.aggregate_logs today self)) ∧
  ProductivityTracker.seeded_application today
      (ProductivityTracker.aggregate_logs today self)
    = ProductivityTracker.application_activity
        (ProductivityTracker.today_record today
           (ProductivityTracker.aggregate_logs today self)).
Proof.
  split; apply map_eq; intros c.
  - unfold ProductivityTracker.seeded_browser. rewrite lookup_union, lookup_fmap.
    destruct (today_record_lookup today (ProductivityTracker.aggregate_logs today self) c)
      as [-> _].
    destruct (aggregate_logs_lookup today self c) as (-> & _ & _).
    unfold ProductivityTracker.seeded_browser. rewrite lookup_union, lookup_fmap.
    change (ProductivityTracker.browser_logger
              (ProductivityTracker.aggregate_logs today self))
      with (ProductivityTracker.browser_logger self).
    destruct (ProductivityTracker.browser_activity _ !! c);
      destruct (default ∅ _ !! c); done.
  - unfold ProductivityTracker.seeded_application. rewrite lookup_union, lookup_fmap.
    destruct (today_record_lookup today (ProductivityTracker.aggregate_logs today self) c)
      as [_ ->].
    destruct (aggregate_logs_lookup today self c) as (_ & -> & _).
    unfold ProductivityTracker.seeded_application. rewrite lookup_union, lookup_fmap.
    change (ProductivityTracker.application_logger
              (ProductivityTracker.aggregate_logs today self))
      with (ProductivityTracker.application_logger self).
    destruct (ProductivityTracker.application_activity _ !! c);
      destruct (ApplicationLogger.app_time _ !! c); done.
Qed.

Lemma activity_record_eq (r1 r2 : ProductivityTracker.activity_record) :
  ProductivityTracker.browser_activity r1 = ProductivityTracker.browser_activity r2 →
  ProductivityTracker.application_activity r1 = ProductivityTracker.application_activity r2 →
  ProductivityTracker.idle_time r1 = ProductivityTracker.idle_time r2 →
  r1 = r2.
Proof. destruct r1, r2. cbn. by intros -> -> ->. Qed.

(** X17: the aggregation is idempotent on the whole tracker.  Running it a
    second time for the same day, with nothing sampled and no key pressed in
    between, changes nothing: not the record, not the buffers. *)
Theorem aggregate_logs_idempotent today self :
  ProductivityTracker.aggregate_logs today (ProductivityTracker.aggregate_logs today self)
  = ProductivityTracker.aggregate_logs today self.
Proof.
  set (after := ProductivityTracker.aggregate_logs today self).
  assert (Hrec : ∃ rec1,
    ProductivityTracker.day_logs (ProductivityTracker.logs after) !! today = Some rec1)
    by (eexists; apply aggregate_logs_today).
  destruct Hrec as [rec1 Hrec1].
  assert (Hkeys :
    KeyboardLogger.key_data
      (ProductivityTracker.keyboard_logger (ProductivityTracker.aggregate_logs today after))
    = KeyboardLogger.key_data (ProductivityTracker.keyboard_logger after)).
  { unfold after. rewrite !aggregate_logs_empties_buffers_eq. apply map_eq. intros c.
    rewrite !lookup_fmap. by destruct (_ !! c). }
  assert (Hday :
    ProductivityTracker.day_logs
      (ProductivityTracker.logs (ProductivityTracker.aggregate_logs today after)) !! today
    = Some rec1).
  { pose proof (aggregate_logs_today today after) as Htwice. rewrite Htwice. f_equal.
    destruct (seeded_again today self) as [Hsb Hsa]. fold after in Hsb, Hsa.
    assert (Htr : ProductivityTracker.today_record today after = rec1)
      by (unfold ProductivityTracker.today_record; by rewrite Hrec1).
    rewrite Htr in Hsb, Hsa.
    apply activity_record_eq.
    - apply map_eq. intros c.
      match goal with |- context [ProductivityTracker.aggregate_record ?b ?a ?p ?t ?r] =>
        destruct (aggregate_record_lookup b a p t r c) as (-> & _ & _ & _) end.
      fold (ProductivityTracker.today_record today after).
      fold (ProductivityTracker.seeded_browser today after). rewrite Hsb.
      fold (ProductivityTracker.pending_keys c after).
      destruct (aggregate_logs_lookup today self c) as (Hb & _ & Hk).
      fold after in Hb, Hk. rewrite Hk.
      unfold ProductivityTracker.browser_entry in Hb. rewrite Hrec1 in Hb. cbn in Hb.
      rewrite Hb.
      destruct (ProductivityTracker.seeded_browser today self !! c); cbn; [|done].
      by rewrite fed_with_twice.
    - apply map_eq. intros c.
      match goal with |- context [ProductivityTracker.aggregate_record ?b ?a ?p ?t ?r] =>
        destruct (aggregate_record_lookup b a p t r c) as (_ & -> & _ & _) end.
      fold (ProductivityTracker.today_record today after).
      fold (ProductivityTracker.seeded_browser today after).
      fold (ProductivityTracker.seeded_application today after). rewrite Hsb, Hsa.
      fold (ProductivityTracker.pending_keys c after).
      destruct (aggregate_logs_lookup today self c) as (Hb & Ha & Hk).
      fold after in Hb, Ha, Hk. rewrite Hk.
      unfold ProductivityTracker.browser_entry in Hb.
      unfold ProductivityTracker.application_entry in Ha.
      rewrite Hrec1 in Hb, Ha. cbn in Hb, Ha. rewrite Hb, Ha.
      destruct (ProductivityTracker.seeded_application today self !! c); cbn; [|done].
      destruct (ProductivityTracker.seeded_browser today self !! c); cbn; [done|].
      by rewrite fed_with_twice.
    - pose proof (aggregate_logs_today today self) as Hfirst. fold after in Hfirst.
      rewrite Hrec1 in Hfirst. injection Hfirst as ->. reflexivity. }
  assert (Hlogs :
    ProductivityTracker.day_logs
      (ProductivityTracker.logs (ProductivityTracker.aggregate_logs today after))
    = ProductivityTracker.day_logs (ProductivityTracker.logs after)).
  { apply map_eq. intros date. destruct (decide (date = today)) as [->|Hne].
    - by rewrite Hday, Hrec1.
    - by rewrite aggregate_logs_other_day. }
  clearbody after.
  destruct (ProductivityTracker.aggregate_logs today after)
    as [h1 l1 i1 u1 b1 a1 d1 [k1] [e1 dl1 s1]] eqn:Htwice.
  assert (Hfields :
    ProductivityTracker.aggregate_logs today after =
    ProductivityTracker.Make (ProductivityTracker.host after)
      (ProductivityTracker.loaded after) (ProductivityTracker.log_interval after)
      (ProductivityTracker.uuid after) (ProductivityTracker.browser_logger after)
      (ProductivityTracker.application_logger after) (ProductivityTracker.idle_logger after)
      (KeyboardLogger.Make k1)
      (ProductivityTracker.LogStore
         (ProductivityTracker.emp_id (ProductivityTracker.logs after)) dl1
         (ProductivityTracker.summary (ProductivityTracker.logs after)))).
  { rewrite Htwice. unfold ProductivityTracker.aggregate_logs in Htwice.
    by injection Htwice as <- <- <- <- <- <- <- _ <- _ <-. }
  rewrite Htwice in Hfields. rewrite Hfields.
  cbn in Hkeys, Hlogs. rewrite Hkeys, Hlogs.
  by destruct after as [? ? ? ? ? ? ? [?] [? ? ?]].
Qed.

(** X18: the aggregation works on today's record only.  The records of the
    other days, [emp_id], [summary], the three samplers and the identity of
    the machine are what they were. *)
Theorem aggregate_logs_frame today self date :
  date ≠ today →
  let after := ProductivityTracker.aggregate_logs today self in
  ProductivityTracker.day_logs (ProductivityTracker.logs after) !! date
    = ProductivityTracker.day_logs (ProductivityTracker.logs self) !! date ∧
  ProductivityTracker.emp_id (ProductivityTracker.logs after)
    = ProductivityTracker.emp_id (ProductivityTracker.logs self) ∧
  ProductivityTracker.summary (ProductivityTracker.logs after)
    = ProductivityTracker.summary (ProductivityTracker.logs self) ∧
  ProductivityTracker.browser_logger after = ProductivityTracker.browser_logger self ∧
  ProductivityTracker.application_logger after
    = ProductivityTracker.application_logger self ∧
  ProductivityTracker.idle_logger after = ProductivityTracker.idle_logger self ∧
  ProductivityTracker.uuid after = ProductivityTracker.uuid self.
Proof.
  intros Hne. cbn zeta. split; [by apply aggregate_logs_other_day|done].
Qed.

Lemma aggregate_logs_frame_witness :
  let after := ProductivityTracker.aggregate_logs "2024-05-07" Scenario.typed in
  ProductivityTracker.day_logs (ProductivityTracker.logs after) !! Scenario.day
    = ProductivityTracker.day_logs (ProductivityTracker.logs Scenario.typed) !! Scenario.day ∧
  ProductivityTracker.emp_id (ProductivityTracker.logs after)
    = ProductivityTracker.emp_id (ProductivityTracker.logs Scenario.typed) ∧
  ProductivityTracker.summary (ProductivityTracker.logs after)
    = ProductivityTracker.summary (ProductivityTracker.logs Scenario.typed) ∧
  ProductivityTracker.browser_logger after
    = ProductivityTracker.browser_logger Scenario.typed ∧
  ProductivityTracker.application_logger after
    = ProductivityTracker.application_logger Scenario.typed ∧
  ProductivityTracker.idle_logger after = ProductivityTracker.idle_logger Scenario.typed ∧
  ProductivityTracker.uuid after = ProductivityTracker.uuid Scenario.typed.
Proof.
  apply (aggregate_logs_frame "2024-05-07" Scenario.typed Scenario.day). by vm_compute.
Defined.

(** X19: keys typed in the window that is in the foreground at the next
    tracking round reach today's record.  Unless today's browser activity
    has an entry with the window's title, the round leaves an application
    entry for the window whose keys are the keys that entry had before (none
    if it is new), then the keys that were already pending for it, then the
    keys typed in it since, in order. *)
Theorem track_round_keeps_typed_keys self presses history title reading today :
  let window := ApplicationLogger.get_active_window title in
  let after :=
    ProductivityTracker.track_activity_round history title reading today
      (ProductivityTracker.keys_pressed presses self) in
  ProductivityTracker.browser_entry today window after = None →
  ∃ stats,
    ProductivityTracker.application_entry today window after = Some stats ∧
    ProductivityTracker.keys stats =
    (from_option ProductivityTracker.keys []
       (ProductivityTracker.application_entry today window self)
     ++ default [] (ProductivityTracker.pending_keys window self)
     ++ (snd <$> filter
           (λ press, ApplicationLogger.get_active_window press.1 = window) presses))%list.
Proof.
  cbn zeta. unfold ProductivityTracker.track_activity_round.
  set (window := ApplicationLogger.get_active_window title).
  set (sampled := ProductivityTracker.Make _ _ _ _ _ _ _ _ _).
  intros Hbrowser.
  destruct (aggregate_logs_lookup today sampled window) as (Hb & Ha & _).
  cbn zeta in Hb, Ha. rewrite Hb in Hbrowser. rewrite Ha. clear Hb Ha.
  destruct (ProductivityTracker.seeded_browser today sampled !! window); [done|].
  unfold ProductivityTracker.seeded_application. rewrite lookup_union, lookup_fmap.
  destruct (today_record_lookup today sampled window) as [_ ->].
  assert (Hseen : is_Some (ApplicationLogger.app_time
    (ProductivityTracker.application_logger sampled) !! window)).
  { unfold sampled, window. cbn. rewrite lookup_insert_eq. by eexists. }
  destruct Hseen as [n ->].
  assert (Hpending : default [] (ProductivityTracker.pending_keys window sampled)
    = (default [] (ProductivityTracker.pending_keys window self)
       ++ (snd <$> filter
             (λ press, ApplicationLogger.get_active_window press.1 = window)
             presses))%list) by apply press_all_buffer.
  change (ProductivityTracker.application_entry today window sampled)
    with (ProductivityTracker.application_entry today window self).
  destruct (ProductivityTracker.application_entry today window self) as [old|]; cbn;
    eexists; (split; [reflexivity|]); by rewrite keys_fed_with, Hpending.
Qed.

Lemma track_round_keeps_typed_keys_witness :
  ∃ stats,
    ProductivityTracker.application_entry Scenario.day "Editor"
      (ProductivityTracker.track_activity_round [] (Some "Editor") None Scenario.day
         (ProductivityTracker.keys_pressed
            [(Some "Editor", Some "h"); (Some "Editor", Some "i")] Scenario.typed))
    = Some stats ∧
    ProductivityTracker.keys stats =
    (from_option ProductivityTracker.keys []
       (ProductivityTracker.application_entry Scenario.day "Editor" Scenario.typed)
     ++ default [] (ProductivityTracker.pending_keys "Editor" Scenario.typed)
     ++ (snd <$> filter
           (λ press, ApplicationLogger.get_active_window press.1 = "Editor")
           [(Some "Editor", Some "h"); (Some "Editor", Some "i")]))%list.
Proof.
  apply (track_round_keeps_typed_keys Scenario.typed
           [(Some "Editor", Some "h"); (Some "Editor", Some "i")]
           [] (Some "Editor") None Scenario.day).
  by vm_compute.
Defined.

(** ** Saving, loading and resetting *)

(** X20: what a completed save round wrote is what the next start loads,
    when the written text has more than 10 lines and the codec reads back
    what it wrote; when the text has 10 lines or fewer, the next start finds
    the empty store with [emp_id = -1] instead, whatever was saved. *)
Theorem save_then_load json_load json_dump json_dump_indent resp today file self
    self1 file1 :
  ProductivityTracker.verify_change_in_user_on_this_system_uuid json_dump
    resp file self = ProductivityTracker.Ok (self1, file1) →
  json_load (json_dump_indent (ProductivityTracker.logs self1))
    = Some (ProductivityTracker.logs self1) →
  let round :=
    ProductivityTracker.save_logs_round json_dump json_dump_indent resp today file self in
  round.1.1 = self1 ∧
  ProductivityTracker.load_logs json_load round.1.2 =
    (if decide (ProductivityTracker.readlines_length
                  (json_dump_indent (ProductivityTracker.logs self1)) ≤ 10)%nat
     then ProductivityTracker.Ok (ProductivityTracker.empty_logs (Some (-1)), false)
     else ProductivityTracker.Ok (ProductivityTracker.logs self1, true)).
Proof.
  intros Hverify Hcodec. cbn zeta.
  unfold ProductivityTracker.save_logs_round. rewrite Hverify. cbn [fst snd].
  split; [done|]. unfold ProductivityTracker.load_logs. rewrite Hcodec.
  repeat case_decide; done || lia.
Qed.

Lemma save_then_load_witness :
  let round :=
    ProductivityTracker.save_logs_round Scenario.write_eleven_lines
      Scenario.write_eleven_lines (Some Scenario.same_user_7) Scenario.day (Some "")
      Scenario.restored in
  round.1.1 = Scenario.restored ∧
  ProductivityTracker.load_logs Scenario.read_stored round.1.2 =
    (if decide (ProductivityTracker.readlines_length
                  (Scenario.write_eleven_lines
                     (ProductivityTracker.logs Scenario.restored)) ≤ 10)%nat
     then ProductivityTracker.Ok (ProductivityTracker.empty_logs (Some (-1)), false)
     else ProductivityTracker.Ok (ProductivityTracker.logs Scenario.restored, true)).
Proof.
  apply (save_then_load Scenario.read_stored Scenario.write_eleven_lines
           Scenario.write_eleven_lines (Some Scenario.same_user_7) Scenario.day
           (Some "") Scenario.restored Scenario.restored (Some "")); reflexivity.
Defined.

(** X21: a save round in which the verification resets the store (a
    response other than 200, or a 200 with another [emp_id]) sends no
    metrics and writes the empty store, when the persistence file is in
    place. *)
Theorem save_logs_round_after_reset json_dump json_dump_indent r today old self :
  ProductivityTracker.status_code r ≠ 200 ∨
  ProductivityTracker.body_emp_id r
    ≠ ProductivityTracker.emp_id (ProductivityTracker.logs self) →
  let id :=
    if decide (ProductivityTracker.status_code r ≠ 200)
    then Some (-1) else ProductivityTracker.body_emp_id r in
  ProductivityTracker.save_logs_round json_dump json_dump_indent (Some r) today
    (Some old) self =
  (ProductivityTracker.set_logs (ProductivityTracker.empty_logs id) self,
   Some (json_dump_indent (ProductivityTracker.empty_logs id)),
   None).
Proof.
  intros Hreset. cbn zeta.
  unfold ProductivityTracker.save_logs_round,
    ProductivityTracker.verify_change_in_user_on_this_system_uuid,
    ProductivityTracker.reset_logs, ProductivityTracker.metrics_payload.
  repeat case_decide; try done; by destruct Hreset.
Qed.

Lemma save_logs_round_after_reset_witness :
  ProductivityTracker.save_logs_round Scenario.write_eleven_lines
    Scenario.write_eleven_lines (Some (ProductivityTracker.Response 200 (Some 42)))
    Scenario.day (Some "") Scenario.typed =
  (ProductivityTracker.set_logs (ProductivityTracker.empty_logs (Some 42)) Scenario.typed,
   Some (Scenario.write_eleven_lines (ProductivityTracker.empty_logs (Some 42))),
   None).
Proof.
  apply (save_logs_round_after_reset Scenario.write_eleven_lines
           Scenario.write_eleven_lines (ProductivityTracker.Response 200 (Some 42))
           Scenario.day "" Scenario.typed).
  right. by vm_compute.
Defined.

(** X22: with the persistence file missing, a save round whose verification
    has to reset the store does nothing at all: the store in memory is not
    reset, the file is not created and no metrics are sent; a round whose
    verification confirms the identity writes the file and sends what it
    would send otherwise. *)
Theorem save_logs_round_without_file json_dump json_dump_indent r today self :
  ProductivityTracker.save_logs_round json_dump json_dump_indent (Some r) today None self =
  (if decide (ProductivityTracker.status_code r = 200 ∧
              ProductivityTracker.body_emp_id r
                = ProductivityTracker.emp_id (ProductivityTracker.logs self))
   then (self, Some (json_dump_indent (ProductivityTracker.logs self)),
         ProductivityTracker.metrics_payload today self)
   else (self, None, None)).
Proof.
  unfold ProductivityTracker.save_logs_round,
    ProductivityTracker.verify_change_in_user_on_this_system_uuid,
    ProductivityTracker.reset_logs.
  destruct (decide (ProductivityTracker.status_code r = 200)) as [H200|H200];
    destruct (decide (ProductivityTracker.body_emp_id r
                      = ProductivityTracker.emp_id (ProductivityTracker.logs self)))
      as [Hid|Hid];
    repeat (case_decide; try tauto); done.
Qed.

(** ** Along every run *)

Lemma step_keeps_identity json_dump json_dump_indent st ev :
  let st' := ProductivityTracker.step json_dump json_dump_indent st ev in
  ProductivityTracker.uuid st'.1 = ProductivityTracker.uuid st.1 ∧
  ProductivityTracker.host st'.1 = ProductivityTracker.host st.1 ∧
  IdleTimeLogger.idle_threshold (ProductivityTracker.idle_logger st'.1)
    = IdleTimeLogger.idle_threshold (ProductivityTracker.idle_logger st.1).
Proof.
  cbn zeta. destruct ev as [title k|history title reading today|resp today].
  - done.
  - cbn. unfold IdleTimeLogger.check_idle.
    destruct reading as [raw|]; [|done]. by destruct (Qle_bool _ _).
  - cbn [ProductivityTracker.step]. unfold ProductivityTracker.save_logs_round,
      ProductivityTracker.verify_change_in_user_on_this_system_uuid,
      ProductivityTracker.reset_logs.
    destruct resp as [r|]; [|done]. by destruct st.2; repeat case_decide.
Qed.

(** X23: along every run of the tracker (key presses, tracking rounds and
    save rounds in any order, with any answers of the environment) the
    identity of the machine, the host and the idle threshold stay what they
    were at the start. *)
Theorem run_keeps_identity json_dump json_dump_indent events : ∀ st,
  let st' := ProductivityTracker.run json_dump json_dump_indent events st in
  ProductivityTracker.uuid st'.1 = ProductivityTracker.uuid st.1 ∧
  ProductivityTracker.host st'.1 = ProductivityTracker.host st.1 ∧
  IdleTimeLogger.idle_threshold (ProductivityTracker.idle_logger st'.1)
    = IdleTimeLogger.idle_threshold (ProductivityTracker.idle_logger st.1).
Proof.
  induction events as [|ev events IH]; intros st; [done|].
  cbn zeta in *. unfold ProductivityTracker.run in *. cbn [foldl].
  destruct (IH (ProductivityTracker.step json_dump json_dump_indent st ev))
    as (-> & -> & ->).
  apply step_keeps_identity.
Qed.

(** X24: along every run that starts on a persistence file of 10 lines or
    fewer, every cached [total_key_strokes] of the store, on every day, is
    the noise filter applied to the keys of its entry. *)
Theorem run_cache_consistent json_load json_dump json_dump_indent
    host log_interval idletime uuid text today self events :
  (ProductivityTracker.readlines_length text ≤ 10)%nat →
  ProductivityTracker.init json_load host log_interval idletime (Some uuid)
    (Some text) today = ProductivityTracker.Ok self →
  ProductivityTracker.store_consistent
    (ProductivityTracker.logs
       (ProductivityTracker.run json_dump json_dump_indent events (self, Some text)).1).
Proof.
  intros Hshort Hinit. apply run_consistent. cbn [fst].
  unfold ProductivityTracker.init, ProductivityTracker.load_logs in Hinit.
  rewrite decide_False in Hinit by lia. cbn in Hinit.
  injection Hinit as <-. apply map_Forall_empty.
Qed.

Lemma run_cache_consistent_witness :
  ProductivityTracker.store_consistent
    (ProductivityTracker.logs
       (ProductivityTracker.run Scenario.write_eleven_lines Scenario.write_eleven_lines
          Scenario.some_events (Scenario.fresh, Some "")).1).
Proof.
  apply (run_cache_consistent Scenario.read_stored Scenario.write_eleven_lines
           Scenario.write_eleven_lines "127.0.0.1" 300 120 "4C4C4544-0042-3510" ""
           Scenario.day Scenario.fresh Scenario.some_events).
  - vm_compute. lia.
  - reflexivity.
Defined.

(** ** Two more edges *)

(** X25: the subscript in the computation of the domain never raises: every
    url has a domain, and it is the url itself when the url has no "//". *)
Theorem domain_of_never_raises url :
  ∃ domain, BrowserLogger.domain_of url = Some domain ∧
    (BrowserLogger.has_double_slash url = false → domain = url) ∧
    (BrowserLogger.has_double_slash url = true →
     BrowserLogger.split_slash url !! 2%nat = Some domain).
Proof.
  destruct (domain_of_total url) as [d Hd]. exists d. split; [done|].
  unfold BrowserLogger.domain_of in Hd.
  destruct (BrowserLogger.has_double_slash url); split; try done.
  intros _. by injection Hd.
Qed.

(** X26: the idle accumulator belongs to the process, not to the day.  The
    [idle_time] a tracking round writes into its day's record is the
    accumulator after that round's idle check; so a round on another day,
    with a reading below the threshold, writes into the new day's record the
    same [idle_time] the previous round wrote for its own day. *)
Theorem idle_time_carries_over self history1 title1 reading1 today1
    history2 title2 raw2 today2 :
  let first :=
    ProductivityTracker.track_activity_round history1 title1 reading1 today1 self in
  let second :=
    ProductivityTracker.track_activity_round history2 title2 (Some raw2) today2 first in
  Qle_bool (IdleTimeLogger.idle_threshold (ProductivityTracker.idle_logger self)) raw2
    = false →
  ProductivityTracker.idle_time <$>
    ProductivityTracker.day_logs (ProductivityTracker.logs first) !! today1
    = Some (IdleTimeLogger.total_idle_time (ProductivityTracker.idle_logger first)) ∧
  ProductivityTracker.idle_time <$>
    ProductivityTracker.day_logs (ProductivityTracker.logs second) !! today2
    = Some (IdleTimeLogger.total_idle_time (ProductivityTracker.idle_logger first)).
Proof.
  cbn zeta. intros Hbelow. unfold ProductivityTracker.track_activity_round.
  rewrite !aggregate_logs_today. cbn. split; [done|].
  assert (IdleTimeLogger.idle_threshold
            (IdleTimeLogger.check_idle reading1 (ProductivityTracker.idle_logger self)).1
          = IdleTimeLogger.idle_threshold (ProductivityTracker.idle_logger self)) as Hthr.
  { unfold IdleTimeLogger.check_idle. destruct reading1 as [raw1|]; [|done].
    by destruct (Qle_bool _ raw1). }
  rewrite Hthr, Hbelow. done.
Qed.

Lemma idle_time_carries_over_witness :
  let first :=
    ProductivityTracker.track_activity_round [] (Some "Editor") (Some 500%Q)
      Scenario.day Scenario.fresh in
  let second :=
    ProductivityTracker.track_activity_round [] (Some "Editor") (Some 3%Q)
      "2024-05-07" first in
  ProductivityTracker.idle_time <$>
    ProductivityTracker.day_logs (ProductivityTracker.logs first) !! Scenario.day
    = Some (IdleTimeLogger.total_idle_time (ProductivityTracker.idle_logger first)) ∧
  ProductivityTracker.idle_time <$>
    ProductivityTracker.day_logs (ProductivityTracker.logs second) !! "2024-05-07"
    = Some (IdleTimeLogger.total_idle_time (ProductivityTracker.idle_logger first)).
Proof.
  apply (idle_time_carries_over Scenario.fresh [] (Some "Editor") (Some 500%Q)
           Scenario.day [] (Some "Editor") 3%Q "2024-05-07").
  reflexivity.
Defined.

(** ** The cached keystroke counts, entry by entry *)

(** C9, as stated, fails: a tracker that starts on a persisted store whose
    entry for "Editor" holds three keys and a cached count of 99 still holds
    that entry, count included, after a tracking round in which no key was
    pending for "Editor"; the noise filter gives 2 on those keys. *)
Lemma aggregate_logs_keeps_stale_count :
  ProductivityTracker.init Scenario.read_stale "127.0.0.1" 300 120
    (Some "4C4C4544-0042-3510") (Some Scenario.eleven_lines) Scenario.day
  = ProductivityTracker.Ok Scenario.stale ∧
  ProductivityTracker.application_entry Scenario.day "Editor"
    (Scenario.editor_tick Scenario.stale) = Some Scenario.stale_entry ∧
  ProductivityTracker.total_key_strokes Scenario.stale_entry
  ≠ ProductivityTracker.count_valid_keystrokes
      (ProductivityTracker.keys Scenario.stale_entry)
      ProductivityTracker.default_max_idle.
Proof. split; [reflexivity|]. split; [by vm_compute|]. by vm_compute. Qed.

(** C9, amended: after every run of the aggregation, an entry of today's
    browser activity has [total_key_strokes] equal to the noise filter
    applied, with the default [max_idle], to the whole of its [keys] whenever
    its context had a buffer of pending keys or the entry was created by this
    run; an entry of today's application activity has it whenever the entry
    was created by this run, or its context had a buffer of pending keys and
    today's browser activity has no entry of that name.  Every other entry is
    the entry the record had before, cached count included.  So the equality
    holds for every entry of the store after the run when it held for every
    entry before (as in the empty store). *)
Theorem aggregate_logs_recomputes_cache today self context :
  let after := ProductivityTracker.aggregate_logs today self in
  let recomputed (stats : ProductivityTracker.context_stats) :=
    ProductivityTracker.total_key_strokes stats =
    ProductivityTracker.count_valid_keystrokes (ProductivityTracker.keys stats)
      ProductivityTracker.default_max_idle in
  (∀ stats,
     ProductivityTracker.browser_entry today context after = Some stats →
     (is_Some (ProductivityTracker.pending_keys context self) ∨
      ProductivityTracker.browser_entry today context self = None →
      recomputed stats) ∧
     (ProductivityTracker.pending_keys context self = None →
      ∀ old, ProductivityTracker.browser_entry today context self = Some old →
      stats = old)) ∧
  (∀ stats,
     ProductivityTracker.application_entry today context after = Some stats →
     (is_Some (ProductivityTracker.pending_keys context self) ∧
      ProductivityTracker.browser_entry today context after = None ∨
      ProductivityTracker.application_entry today context self = None →
      recomputed stats) ∧
     (ProductivityTracker.pending_keys context self = None ∨
      is_Some (ProductivityTracker.browser_entry today context after) →
      ∀ old, ProductivityTracker.application_entry today context self = Some old →
      stats = old)) ∧
  (ProductivityTracker.store_consistent (ProductivityTracker.logs self) →
   ProductivityTracker.store_consistent (ProductivityTracker.logs after)).
Proof.
  cbn zeta.
  destruct (aggregate_logs_lookup today self context) as (Hb & Ha & _).
  cbn zeta in Hb, Ha. rewrite Hb, Ha. clear Hb Ha.
  unfold ProductivityTracker.seeded_browser, ProductivityTracker.seeded_application.
  rewrite !lookup_union, !lookup_fmap.
  destruct (today_record_lookup today self context) as [-> ->].
  split; [|split; [|apply aggregate_logs_consistent]].
  - intros stats Hstats. split.
    + intros Hcase.
      destruct (ProductivityTracker.pending_keys context self) as [ks|].
      * destruct (ProductivityTracker.browser_entry today context self),
          (default ∅ _ !! context); cbn in Hstats; try done;
          by injection Hstats as <-.
      * destruct Hcase as [[? [=]]|Hnew]. rewrite Hnew in Hstats.
        destruct (default ∅ _ !! context); cbn in Hstats; [|done].
        by injection Hstats as <-.
    + intros Hnone old Hold. rewrite Hnone, Hold in Hstats.
      destruct (default ∅ _ !! context); cbn in Hstats; by injection Hstats as <-.
  - intros stats Hstats. split.
    + intros [[Hpending Hnobrowser]|Hnew].
      * destruct (ProductivityTracker.browser_entry today context self),
          (default ∅ _ !! context); cbn in Hnobrowser; try done.
        destruct Hpending as [ks Hks]. rewrite Hks in Hstats.
        destruct (ProductivityTracker.application_entry today context self),
          (ApplicationLogger.app_time _ !! context); cbn in Hstats; try done;
          by injection Hstats as <-.
      * rewrite Hnew in Hstats.
        destruct (ApplicationLogger.app_time _ !! context); cbn in Hstats; [|done].
        destruct (ProductivityTracker.browser_entry today context self),
          (default ∅ _ !! context), (ProductivityTracker.pending_keys context self);
          cbn in Hstats; by injection Hstats as <-.
    + intros Hcase old Hold. rewrite Hold in Hstats.
      destruct (ApplicationLogger.app_time _ !! context); cbn in Hstats;
        destruct (ProductivityTracker.browser_entry today context self),
          (default ∅ _ !! context); cbn in Hstats, Hcase;
        try (by injection Hstats as <-);
        (destruct Hcase as [Hnone|[? [=]]]; rewrite Hnone in Hstats;
         by injection Hstats as <-).
Qed.

(** On the tracker that started on the stale store, one more key typed in
    "Editor" makes the aggregation recompute the count of its entry. *)
Lemma aggregate_logs_recomputes_cache_witness :
  ProductivityTracker.application_entry Scenario.day "Editor"
    (ProductivityTracker.aggregate_logs Scenario.day Scenario.stale_typing)
  = Some (ProductivityTracker.ContextStats 5 None
            [Scenario.a; Scenario.a; Scenario.a; Scenario.a] 3) ∧
  ProductivityTracker.total_key_strokes
    (ProductivityTracker.ContextStats 5 None
       [Scenario.a; Scenario.a; Scenario.a; Scenario.a] 3) =
  ProductivityTracker.count_valid_keystrokes
    (ProductivityTracker.keys
       (ProductivityTracker.ContextStats 5 None
          [Scenario.a; Scenario.a; Scenario.a; Scenario.a] 3))
    ProductivityTracker.default_max_idle.
Proof.
  assert (Hentry :
    ProductivityTracker.application_entry Scenario.day "Editor"
      (ProductivityTracker.aggregate_logs Scenario.day Scenario.stale_typing)
    = Some (ProductivityTracker.ContextStats 5 None
              [Scenario.a; Scenario.a; Scenario.a; Scenario.a] 3))
    by (by vm_compute).
  split; [exact Hentry|].
  destruct (aggregate_logs_recomputes_cache Scenario.day Scenario.stale_typing "Editor")
    as (_ & Happlication & _).
  destruct (Happlication _ Hentry) as [Hrecomputed _].
  apply Hrecomputed. left. split; [by eexists|by vm_compute].
Defined.
